(* Shallow embedding of the negotiation / order / payment core of Rizana:
   src/rizana/api/controllers/chat.py, controllers/order.py and
   services/stripe_service.py.

   Modelling conventions.
   - A UUID is a nat; a freshly generated uuid4 is the store's [next_id].
   - A table is a list of rows in the order the database returns them, so
     SQLAlchemy's [.first()] on a query is [find] on the filtered list.
   - Every [self.db.add(x); await self.db.commit()] is one write of the store.
     An exception raised before a commit leaves the store as it was at the
     last commit (the request's session is closed without committing).
   - Monetary amounts (Python floats) are integers in the smallest unit;
     float rounding is not modelled.  [datetime.now()] time stamps
     (created_at, updated_at) are not modelled. *)

From Stdlib Require Import List String Bool Arith ZArith Lia.
Import ListNotations.
Open Scope string_scope.
Open Scope list_scope.

(* ------------------------------------------------------------------------ *)
(** * Data model (models/table.py, models/chat.py, schemas/chat.py) *)

(** [ProposalStatus] of schemas/chat.py. *)
Inductive ProposalStatus := PENDING | ACCEPTED | REJECTED.

Definition ProposalStatus_eqb (a b : ProposalStatus) : bool :=
  match a, b with
  | PENDING, PENDING | ACCEPTED, ACCEPTED | REJECTED, REJECTED => true
  | _, _ => false
  end.

Record User := mkUser { user_id : nat; user_is_active : bool }.

Record Item := mkItem { item_id : nat; item_user_id : nat; item_price : Z }.

(** [Conversation]: no uniqueness constraint is declared on the triple. *)
Record Conversation := mkConversation {
  conv_id : nat; conv_item_id : nat; conv_buyer_id : nat; conv_seller_id : nat }.

Record Message := mkMessage {
  msg_id : nat; msg_sender_id : nat; msg_receiver_id : nat;
  msg_conversation_id : nat; msg_message : string }.

Record Proposal := mkProposal {
  prop_id : nat; prop_proposed_price : Z; prop_sender_id : nat;
  prop_receiver_id : nat; prop_conversation_id : nat;
  prop_status : ProposalStatus }.

Record Order := mkOrder {
  order_id : nat; order_item_id : nat; order_buyer_id : nat;
  order_seller_id : nat; order_total_price : Z;
  order_payment_method_id : nat; order_billing_address_id : nat;
  order_payment_status : string;
  order_stripe_payment_intent_id : option string }.

Record PaymentMethod := mkPaymentMethod { pm_id : nat; pm_user_id : nat }.
Record BillingAddress := mkBillingAddress { ba_id : nat; ba_user_id : nat }.
Record CharityContribution := mkCharity {
  cc_order_id : nat; cc_user_id : nat; cc_amount : Z }.

(* The tables [BankAccount], [StripeSellerAccount] and [Payout] are imported
   by services/stripe_service.py from models/table.py but are not declared in
   the table.py under src/; their columns are taken from [BankAccountBase] and
   [StripeSellerAccountBase] (models/payment.py) and from the [Payout(...)]
   constructor call in [StripeService.confirm_payment].  [User.bank_accounts]
   is the list of the user's bank accounts, in database order. *)
Record BankAccount := mkBankAccount { bank_id : nat; bank_user_id : nat }.
Record StripeSellerAccount := mkStripeSellerAccount {
  ssa_user_id : nat; ssa_stripe_account_id : string }.
Record Payout := mkPayout {
  payout_order_id : nat; payout_seller_id : nat; payout_base_amount : Z;
  payout_platform_fee : Z; payout_seller_amount : Z;
  payout_status : string; payout_stripe_payment_intent_id : string;
  payout_bank_account_id : nat }.

(** The database. *)
Record db := mkDb {
  users : list User;
  items : list Item;
  conversations : list Conversation;
  messages : list Message;
  proposals : list Proposal;
  orders : list Order;
  payment_methods : list PaymentMethod;
  billing_addresses : list BillingAddress;
  charity_contributions : list CharityContribution;
  bank_accounts : list BankAccount;
  stripe_seller_accounts : list StripeSellerAccount;
  payouts : list Payout;
  next_id : nat }.

Definition upd_conversations f s := mkDb s.(users) s.(items) (f s.(conversations))
  s.(messages) s.(proposals) s.(orders) s.(payment_methods) s.(billing_addresses)
  s.(charity_contributions) s.(bank_accounts) s.(stripe_seller_accounts) s.(payouts) s.(next_id).
Definition upd_messages f s := mkDb s.(users) s.(items) s.(conversations)
  (f s.(messages)) s.(proposals) s.(orders) s.(payment_methods) s.(billing_addresses)
  s.(charity_contributions) s.(bank_accounts) s.(stripe_seller_accounts) s.(payouts) s.(next_id).
Definition upd_proposals f s := mkDb s.(users) s.(items) s.(conversations)
  s.(messages) (f s.(proposals)) s.(orders) s.(payment_methods) s.(billing_addresses)
  s.(charity_contributions) s.(bank_accounts) s.(stripe_seller_accounts) s.(payouts) s.(next_id).
Definition upd_orders f s := mkDb s.(users) s.(items) s.(conversations)
  s.(messages) s.(proposals) (f s.(orders)) s.(payment_methods) s.(billing_addresses)
  s.(charity_contributions) s.(bank_accounts) s.(stripe_seller_accounts) s.(payouts) s.(next_id).
Definition upd_payment_methods f s := mkDb s.(users) s.(items) s.(conversations)
  s.(messages) s.(proposals) s.(orders) (f s.(payment_methods)) s.(billing_addresses)
  s.(charity_contributions) s.(bank_accounts) s.(stripe_seller_accounts) s.(payouts) s.(next_id).
Definition upd_billing_addresses f s := mkDb s.(users) s.(items) s.(conversations)
  s.(messages) s.(proposals) s.(orders) s.(payment_methods) (f s.(billing_addresses))
  s.(charity_contributions) s.(bank_accounts) s.(stripe_seller_accounts) s.(payouts) s.(next_id).
Definition upd_charity_contributions f s := mkDb s.(users) s.(items) s.(conversations)
  s.(messages) s.(proposals) s.(orders) s.(payment_methods) s.(billing_addresses)
  (f s.(charity_contributions)) s.(bank_accounts) s.(stripe_seller_accounts) s.(payouts) s.(next_id).
Definition upd_stripe_seller_accounts f s := mkDb s.(users) s.(items) s.(conversations)
  s.(messages) s.(proposals) s.(orders) s.(payment_methods) s.(billing_addresses)
  s.(charity_contributions) s.(bank_accounts) (f s.(stripe_seller_accounts)) s.(payouts) s.(next_id).
Definition upd_payouts f s := mkDb s.(users) s.(items) s.(conversations)
  s.(messages) s.(proposals) s.(orders) s.(payment_methods) s.(billing_addresses)
  s.(charity_contributions) s.(bank_accounts) s.(stripe_seller_accounts) (f s.(payouts)) s.(next_id).
Definition upd_next_id f s := mkDb s.(users) s.(items) s.(conversations)
  s.(messages) s.(proposals) s.(orders) s.(payment_methods) s.(billing_addresses)
  s.(charity_contributions) s.(bank_accounts) s.(stripe_seller_accounts) s.(payouts) (f s.(next_id)).

(* ------------------------------------------------------------------------ *)
(** * Errors (schemas/error.py and the Python built-in exceptions) *)

Inductive error :=
| UserNotFoundError
| UserIsInactive
| UserNotAllowed (action : string)
| ItemDoesNotExist
| ConversationNotFoundError
| ProposalNotFoundError
| PaymentMethodRequiredError
| PaymentIntentCreationError
| InvalidPaymentAmountError
| PaymentIntentConfirmationError
| NoResultFound          (* sqlalchemy.exc.NoResultFound, not caught *)
| IndexError             (* Python IndexError *)
| TypeError              (* Python TypeError: wrong number of arguments *)
| UnboundLocalError      (* Python UnboundLocalError *)
| IntegrityError.        (* sqlalchemy.exc.IntegrityError, re-raised *)

(* ------------------------------------------------------------------------ *)
(** * A state and error monad over the store *)

Inductive result (A : Type) :=
| Ok (a : A) (s : db)
| Err (e : error) (s : db).
Arguments Ok {A} a s.
Arguments Err {A} e s.

Definition M (A : Type) := db -> result A.

Definition ret {A} (a : A) : M A := fun s => Ok a s.
Definition raise {A} (e : error) : M A := fun s => Err e s.
Definition bind {A B} (m : M A) (k : A -> M B) : M B :=
  fun s => match m s with Ok a s' => k a s' | Err e s' => Err e s' end.
Definition modify (f : db -> db) : M unit := fun s => Ok tt (f s).
Definition gets {A} (f : db -> A) : M A := fun s => Ok (f s) s.
Definition catch {A} (m : M A) (h : error -> M A) : M A :=
  fun s => match m s with Ok a s' => Ok a s' | Err e s' => h e s' end.

Notation "'let*' x ':=' m 'in' k" := (bind m (fun x => k))
  (at level 200, x name, m at level 100, k at level 200).

(** A fresh primary key, standing for [uuid4()]. *)
Definition fresh_id : M nat :=
  fun s => Ok s.(next_id) (upd_next_id S s).

(** The outcome of a call, without the store. *)
Definition outcome {A} (r : result A) : option A :=
  match r with Ok a _ => Some a | Err _ _ => None end.
Definition store {A} (r : result A) : db :=
  match r with Ok _ s => s | Err _ s => s end.

(* ------------------------------------------------------------------------ *)
(** * UserController.get_user (controllers/user.py) *)

(** [get_user(UserQuery(user_id=uid))]: with no id the query variable is
    never bound (UnboundLocalError); [.one()] raises NoResultFound, turned
    into UserNotFoundError; an inactive user raises UserIsInactive. *)
Definition get_user (uid : option nat) : M User :=
  match uid with
  | None => raise UnboundLocalError
  | Some u =>
      let* us := gets users in
      match find (fun x => Nat.eqb (user_id x) u) us with
      | None => raise UserNotFoundError
      | Some usr => if user_is_active usr then ret usr else raise UserIsInactive
      end
  end.

(* ------------------------------------------------------------------------ *)
(** * ItemController.get_item (controllers/item.py) *)

(** [get_item(item_id, user_id)]: the item, if it exists and is the user's. *)
Definition get_item (iid uid : nat) : M Item :=
  let* its := gets items in
  match find (fun i => Nat.eqb (item_id i) iid) its with
  | None => raise ItemDoesNotExist
  | Some it =>
      if negb (Nat.eqb (item_user_id it) uid)
      then raise (UserNotAllowed "Get an item that is not yours")
      else ret it
  end.

(** The call [self.item_controller.get_item(x.item_id)] of chat.py passes one
    argument to a method that takes two ([item_id], [user_id]): Python raises
    TypeError at the call, before the coroutine runs. *)
Definition chat_get_item_call (iid : option nat) : M Item := raise TypeError.

(* ------------------------------------------------------------------------ *)
(** * Requests (schemas/chat.py) *)

(** [MessageCreate]; the model validator guarantees that [item_id] or
    [conversation_id] is given. *)
Record MessageCreate := mkMessageCreate {
  mc_message : string; mc_receiver_id : option nat;
  mc_item_id : option nat; mc_conversation_id : option nat }.

(** [ProposalCreate]; [proposed_price] is validated [> 0]. *)
Record ProposalCreate := mkProposalCreate {
  pc_proposed_price : Z; pc_receiver_id : option nat;
  pc_item_id : option nat; pc_conversation_id : option nat }.

(* ------------------------------------------------------------------------ *)
(** * ChatController (controllers/chat.py) *)

(** [get_conversation_by_id]: [db.get(Conversation, None)] finds nothing. *)
Definition get_conversation_by_id (cid : option nat) : M Conversation :=
  match cid with
  | None => raise ConversationNotFoundError
  | Some c =>
      let* cs := gets conversations in
      match find (fun x => Nat.eqb (conv_id x) c) cs with
      | None => raise ConversationNotFoundError
      | Some conv => ret conv
      end
  end.

(** [create_conversation]: a new row, whatever rows already exist. *)
Definition create_conversation (buyer_id seller_id iid : nat) : M Conversation :=
  let* cid := fresh_id in
  let conversation := mkConversation cid iid buyer_id seller_id in
  let* _ := modify (upd_conversations (fun cs => cs ++ [conversation])) in
  ret conversation.

(** The lazily created conversation of [send_message] and [create_proposal]:
    the buyer is the sender unless the sender owns the item, in which case it
    is the declared receiver.  [Conversation(item_id=None)] fails the NOT NULL
    column at commit (IntegrityError). *)
Definition create_conversation_for (sender_id : nat) (receiver : User)
    (item : Item) (iid : option nat) : M Conversation :=
  match iid with
  | None => raise IntegrityError
  | Some i =>
      create_conversation
        (if negb (Nat.eqb sender_id (item_user_id item)) then sender_id
         else user_id receiver)
        (item_user_id item) i
  end.

(** [proposal.status = st] on the proposal with the given primary key. *)
Definition set_proposal_status (pid : nat) (st : ProposalStatus)
    (ps : list Proposal) : list Proposal :=
  map (fun p => if Nat.eqb (prop_id p) pid
                then mkProposal (prop_id p) (prop_proposed_price p) (prop_sender_id p)
                       (prop_receiver_id p) (prop_conversation_id p) st
                else p) ps.

Section ChatController.

(** How the controller's item lookup behaves; [chat_get_item_call] is the one
    of the source. *)
Variable chat_get_item : option nat -> M Item.

(** [send_message].  The [updated_at] refresh of an existing conversation is
    a time stamp and is not modelled. *)
Definition send_message_using (sender_id : nat) (mc : MessageCreate) : M Conversation :=
  let* sender := get_user (Some sender_id) in
  let* receiver := get_user (mc_receiver_id mc) in
  let* conversation :=
    match mc_conversation_id mc with
    | Some cid => get_conversation_by_id (Some cid)
    | None =>
        let* item := chat_get_item (mc_item_id mc) in
        create_conversation_for sender_id receiver item (mc_item_id mc)
    end in
  let* mid := fresh_id in
  let new_message := mkMessage mid (user_id sender) (user_id receiver)
                       (conv_id conversation) (mc_message mc) in
  let* _ := modify (upd_messages (fun ms => ms ++ [new_message])) in
  ret conversation.

(** [create_proposal]. *)
Definition create_proposal_using (sender_id : nat) (pc : ProposalCreate) : M Conversation :=
  let* sender := get_user (Some sender_id) in
  let* receiver := get_user (pc_receiver_id pc) in
  let* conversation :=
    catch (get_conversation_by_id (pc_conversation_id pc))
      (fun e => match e with
                | ConversationNotFoundError =>
                    match pc_item_id pc with
                    | None => raise e
                    | Some iid =>
                        let* item := chat_get_item (Some iid) in
                        create_conversation_for sender_id receiver item (Some iid)
                    end
                | _ => raise e
                end) in
  let* pid := fresh_id in
  let new_proposal :=
    mkProposal pid (pc_proposed_price pc) (user_id sender)
      (if negb (Nat.eqb (user_id sender) (conv_seller_id conversation))
       then conv_seller_id conversation else conv_buyer_id conversation)
      (conv_id conversation) PENDING in
  let* _ := modify (upd_proposals (fun ps => ps ++ [new_proposal])) in
  ret conversation.

End ChatController.

Definition send_message := send_message_using chat_get_item_call.
Definition create_proposal := create_proposal_using chat_get_item_call.

(** [accept_proposal]. *)
Definition accept_proposal (pid uid : nat) : M Conversation :=
  let* ps := gets proposals in
  match find (fun p => Nat.eqb (prop_id p) pid) ps with
  | None => raise ProposalNotFoundError
  | Some proposal =>
      let* cs := gets conversations in
      match find (fun c => Nat.eqb (conv_id c) (prop_conversation_id proposal)) cs with
      | None => raise ConversationNotFoundError
      | Some conversation =>
          if Nat.eqb (prop_sender_id proposal) uid
          then raise (UserNotAllowed "accept your own proposal")
          else if negb (Nat.eqb (conv_seller_id conversation) uid)
                  && negb (Nat.eqb (conv_buyer_id conversation) uid)
          then raise (UserNotAllowed "accept a proposal that is not yours")
          else
            let* _ := modify (upd_proposals (set_proposal_status pid ACCEPTED)) in
            ret conversation
      end
  end.

(** [refuse_proposal]. *)
Definition refuse_proposal (pid uid : nat) : M Conversation :=
  let* ps := gets proposals in
  match find (fun p => Nat.eqb (prop_id p) pid) ps with
  | None => raise ProposalNotFoundError
  | Some proposal =>
      let* cs := gets conversations in
      match find (fun c => Nat.eqb (conv_id c) (prop_conversation_id proposal)) cs with
      | None => raise ConversationNotFoundError
      | Some conversation =>
          if negb (Nat.eqb (conv_seller_id conversation) uid)
             && negb (Nat.eqb (conv_buyer_id conversation) uid)
          then raise (UserNotAllowed "refuse a proposal that is not yours")
          else
            let* _ := modify (upd_proposals (set_proposal_status pid REJECTED)) in
            ret conversation
      end
  end.

(* ------------------------------------------------------------------------ *)
(** * OrderController (controllers/order.py) *)

(** [OrderCreate]: the item, and the optional charity contribution amount;
    the payment-method and billing-address payloads are stored as rows of
    their own and carry nothing the claims read. *)
Record OrderCreate := mkOrderCreate { oc_item_id : nat; oc_charity : option Z }.

(** The filter of the conversation query of [_get_accepted_proposal_price]. *)
Definition conv_matches (buyer_id seller_id iid : nat) (c : Conversation) : bool :=
  Nat.eqb (conv_buyer_id c) buyer_id && Nat.eqb (conv_seller_id c) seller_id
  && Nat.eqb (conv_item_id c) iid.

(** The filter of its proposal query. *)
Definition accepted_in (c : Conversation) (p : Proposal) : bool :=
  Nat.eqb (prop_conversation_id p) (conv_id c)
  && ProposalStatus_eqb (prop_status p) ACCEPTED.

(** [_get_accepted_proposal_price]: two [.first()] queries. *)
Definition get_accepted_proposal_price (oc : OrderCreate) (buyer_id seller_id : nat)
    : M (option Z) :=
  let* cs := gets conversations in
  match find (conv_matches buyer_id seller_id (oc_item_id oc)) cs with
  | None => ret None
  | Some conversation =>
      let* ps := gets proposals in
      match find (accepted_in conversation) ps with
      | None => ret None
      | Some proposal => ret (Some (prop_proposed_price proposal))
      end
  end.

(** Python's [x or y] for [x : float | None]: [y] when [x] is None or 0. *)
Definition py_or (x : option Z) (y : Z) : Z :=
  match x with
  | Some v => if Z.eqb v 0 then y else v
  | None => y
  end.

Definition save_payment_method (uid : nat) : M PaymentMethod :=
  let* i := fresh_id in
  let pm := mkPaymentMethod i uid in
  let* _ := modify (upd_payment_methods (fun l => l ++ [pm])) in
  ret pm.

Definition save_billing_address (uid : nat) : M BillingAddress :=
  let* i := fresh_id in
  let ba := mkBillingAddress i uid in
  let* _ := modify (upd_billing_addresses (fun l => l ++ [ba])) in
  ret ba.

Definition add_charity_contribution (order : Order) (amount : Z) : M unit :=
  modify (upd_charity_contributions
            (fun l => l ++ [mkCharity (order_id order) (order_buyer_id order) amount])).

(** [create_order(order_create, current_user)]. *)
Definition create_order (oc : OrderCreate) (current_user : User) : M Order :=
  let* its := gets items in
  match find (fun i => Nat.eqb (item_id i) (oc_item_id oc)) its with
  | None => raise ItemDoesNotExist
  | Some item =>
      let buyer := current_user in
      let* seller := get_user (Some (item_user_id item)) in
      if Nat.eqb (user_id buyer) (item_user_id item)
      then raise (UserNotAllowed "Create an order for its own item")
      else
        let* accepted := get_accepted_proposal_price oc (user_id buyer) (user_id seller) in
        let price := py_or accepted (item_price item) in
        let* payment_method := save_payment_method (user_id buyer) in
        let* billing_address := save_billing_address (user_id buyer) in
        let* oid := fresh_id in
        let order := mkOrder oid (oc_item_id oc) (user_id buyer) (user_id seller) price
                       (pm_id payment_method) (ba_id billing_address) "pending" None in
        let* _ := modify (upd_orders (fun os => os ++ [order])) in
        let* _ := match oc_charity oc with
                  | Some a => add_charity_contribution order a
                  | None => ret tt
                  end in
        ret order
  end.

(* ------------------------------------------------------------------------ *)
(** * StripeService (services/stripe_service.py) *)

(** A payment intent as Stripe returns it: its metadata [order_id] is
    [None] when it does not parse as a UUID (ValueError); [base_amount] and
    [platform_fee] are the metadata amounts written by
    [create_payment_intent]. *)
Record PaymentIntent := mkPaymentIntent {
  pi_id : string; pi_status : string; pi_client_secret : string;
  pi_meta_order_id : option nat; pi_meta_base_amount : Z;
  pi_meta_platform_fee : Z }.

Record PaymentIntentResponse := mkPaymentIntentResponse {
  resp_client_secret : string; resp_payment_intent_id : string }.

(** The answers of the Stripe API calls made by [create_payment_intent]:
    [None] / [false] is a [stripe.error.StripeError]. *)
Record StripeApi := mkStripeApi {
  api_account_create : option string;
  api_customer_create : bool;
  api_payment_intent_create : option PaymentIntent }.

(** [order.payment_status = "paid"; order.stripe_payment_intent_id = id]. *)
Definition mark_paid (oid : nat) (intent_id : string) (os : list Order) : list Order :=
  map (fun o => if Nat.eqb (order_id o) oid
                then mkOrder (order_id o) (order_item_id o) (order_buyer_id o)
                       (order_seller_id o) (order_total_price o)
                       (order_payment_method_id o) (order_billing_address_id o)
                       "paid" (Some intent_id)
                else o) os.

(** [order.seller.bank_accounts]. *)
Definition seller_bank_accounts (uid : nat) : M (list BankAccount) :=
  let* bas := gets bank_accounts in
  ret (filter (fun b => Nat.eqb (bank_user_id b) uid) bas).

(** [confirm_payment(payment_intent_id)] against the intents Stripe holds.
    The order's fields are set in the session before [Payout(...)] reads
    [bank_accounts[0]]; an IndexError there is not caught, and nothing is
    committed. *)
Definition confirm_payment (stripe_intents : list PaymentIntent)
    (payment_intent_id : string) : M PaymentIntentResponse :=
  match find (fun i => String.eqb (pi_id i) payment_intent_id) stripe_intents with
  | None => raise PaymentIntentConfirmationError
  | Some intent =>
      let resp := mkPaymentIntentResponse (pi_client_secret intent) (pi_id intent) in
      match pi_meta_order_id intent with
      | None => raise PaymentIntentConfirmationError
      | Some oid =>
          let* os := gets orders in
          match find (fun o => Nat.eqb (order_id o) oid) os with
          | None => raise NoResultFound
          | Some order =>
              if negb (String.eqb (order_payment_status order) "paid")
                 && String.eqb (pi_status intent) "succeeded"
              then
                let* bas := seller_bank_accounts (order_seller_id order) in
                match bas with
                | [] => raise IndexError
                | bank :: _ =>
                    let base := pi_meta_base_amount intent in
                    let fee := pi_meta_platform_fee intent in
                    let payout := mkPayout (order_id order) (order_seller_id order)
                                    base fee (base - fee)%Z "completed"
                                    (pi_id intent) (bank_id bank) in
                    let* _ := modify (fun st => upd_payouts (fun l => l ++ [payout])
                                                  (upd_orders (mark_paid oid (pi_id intent)) st)) in
                    ret resp
                end
              else ret resp
          end
      end
  end.

(** [create_payment_intent(order, current_user)].  [order.payment_method_id]
    is a non-null UUID column and a UUID is always truthy, so the
    PaymentMethodRequiredError branch is never taken.  The tax, fee and
    charity amounts are float arithmetic that raises nothing and only feeds
    the Stripe request. *)
Definition create_payment_intent (api : StripeApi) (order : Order)
    (current_user : User) : M PaymentIntentResponse :=
  if negb (Nat.eqb (user_id current_user) (order_buyer_id order))
  then raise (UserNotAllowed "Create a payment intent for an order that is not yours")
  else
    let* accs := gets stripe_seller_accounts in
    let* seller_account :=
      match find (fun a => Nat.eqb (ssa_user_id a) (order_seller_id order)) accs with
      | Some a => ret a
      | None =>
          match api_account_create api with
          | None => raise PaymentIntentCreationError
          | Some acct =>
              let a := mkStripeSellerAccount (order_seller_id order) acct in
              let* _ := modify (upd_stripe_seller_accounts (fun l => l ++ [a])) in
              ret a
          end
      end in
    if Z.leb (order_total_price order) 0 then raise InvalidPaymentAmountError
    else if negb (api_customer_create api) then raise PaymentIntentCreationError
    else
      match api_payment_intent_create api with
      | None => raise PaymentIntentCreationError
      | Some intent =>
          ret (mkPaymentIntentResponse (pi_client_secret intent) (pi_id intent))
      end.

(* ------------------------------------------------------------------------ *)
(** * Sample stores *)

(** Buyer 1 and seller 2 (owner of item 10, price 100) share conversation 20;
    user 3 is a third party. *)
Definition shop (ps : list Proposal) (os : list Order) (bas : list BankAccount) : db :=
  mkDb [mkUser 1 true; mkUser 2 true; mkUser 3 true]
       [mkItem 10 2 100]
       [mkConversation 20 10 1 2]
       [] ps os [] [] [] bas [] [] 100.

Definition accepted_80 := mkProposal 30 80 1 2 20 ACCEPTED.
Definition accepted_90 := mkProposal 31 90 2 1 20 ACCEPTED.

Definition pending_order := mkOrder 40 10 1 2 80 41 42 "pending" None.

Definition intent_40 := mkPaymentIntent "pi_1" "succeeded" "secret_1" (Some 40) 80 4.

(* ------------------------------------------------------------------------ *)
(** * Observations on stores *)

(** The status a proposal has in a store. *)
Definition status_of (pid : nat) (s : db) : option ProposalStatus :=
  option_map prop_status (find (fun p => Nat.eqb (prop_id p) pid) (proposals s)).

Definition keeps_proposals {A} (m : M A) : Prop :=
  forall st, proposals (store (m st)) = proposals st.

(** The number of conversations of a triple. *)
Definition triple_count (buyer_id seller_id iid : nat) (s : db) : nat :=
  List.length (filter (conv_matches buyer_id seller_id iid) (conversations s)).

(* ------------------------------------------------------------------------ *)
(** * The rest of the order, chat and payment controllers *)

(** [OrderStatus] of models/order.py. *)
Module OrderStatus.
Inductive t := PENDING | COMPLETED | CANCELED.
End OrderStatus.

(** [OrderCancellation] of models/table.py: [order_id] is its primary key. *)
Record OrderCancellation := mkOrderCancellation {
  ocan_user_id : nat; ocan_order_id : nat; ocan_cancellation_reason : string }.

(** The errors the rest of the controllers add to those of [error]:
    [OrderNotFoundError], [ConversationNotFoundErrorByUsers] and
    [PaymentMethodDoesNotExist] of schemas/error.py, SQLAlchemy's
    [MultipleResultsFound] (raised by [.one()] on two rows or more) and
    [DataError] (a value too long for its VARCHAR column). *)
Inductive ext_error :=
| Core (e : error)
| OrderNotFoundError
| ConversationNotFoundErrorByUsers
| PaymentMethodDoesNotExist
| MultipleResultsFound
| DataError.

(** The store with the [Order.status] column and the [order_cancellation]
    table.  The status column is kept beside the orders as an association
    list, the latest write first; an order without an entry has the
    column's default [OrderStatus.PENDING]. *)
Record xdb := mkXdb {
  core : db;
  order_status : list (nat * OrderStatus.t);
  order_cancellations : list OrderCancellation }.

Definition with_core (s : db) (x : xdb) : xdb :=
  mkXdb s (order_status x) (order_cancellations x).

(** The status column of an order. *)
Definition status_of_order (oid : nat) (x : xdb) : OrderStatus.t :=
  match find (fun p => Nat.eqb (fst p) oid) (order_status x) with
  | Some (_, st) => st
  | None => OrderStatus.PENDING
  end.

Inductive xresult (A : Type) :=
| XOk (a : A) (x : xdb)
| XErr (e : ext_error) (x : xdb).
Arguments XOk {A} a x.
Arguments XErr {A} e x.

Definition XM (A : Type) := xdb -> xresult A.

Definition xret {A} (a : A) : XM A := fun x => XOk a x.
Definition xraise {A} (e : ext_error) : XM A := fun x => XErr e x.
Definition xbind {A B} (m : XM A) (k : A -> XM B) : XM B :=
  fun x => match m x with XOk a x' => k a x' | XErr e x' => XErr e x' end.
Definition xgets {A} (f : xdb -> A) : XM A := fun x => XOk (f x) x.
Definition xmodify (f : xdb -> xdb) : XM unit := fun x => XOk tt (f x).

Notation "'let^' x ':=' m 'in' k" := (xbind m (fun x => k))
  (at level 200, x name, m at level 100, k at level 200).

(** A computation of the core model, run on the core of the store. *)
Definition lift {A} (m : M A) : XM A :=
  fun x => match m (core x) with
           | Ok a s => XOk a (with_core s x)
           | Err e s => XErr (Core e) (with_core s x)
           end.

Definition xstore {A} (r : xresult A) : xdb :=
  match r with XOk _ x => x | XErr _ x => x end.

(** SQLAlchemy's [.one()] on the rows a query returns: [none] when there is
    no row, MultipleResultsFound when there are several. *)
Definition one {A} (none : ext_error) (rows : list A) : XM A :=
  match rows with
  | [] => xraise none
  | [r] => xret r
  | _ :: _ :: _ => xraise MultipleResultsFound
  end.

(** [OrderController.create_order] with the [status] field of [OrderCreate]
    ([OrderBase.status], copied into the order by [model_dump]). *)
Definition create_order_with_status (oc : OrderCreate) (st : OrderStatus.t)
    (current_user : User) : XM Order :=
  let^ order := lift (create_order oc current_user) in
  let^ _ := xmodify (fun x => mkXdb (core x) ((order_id order, st) :: order_status x)
                                (order_cancellations x)) in
  xret order.

(** [OrderController.get_order]: a [.first()] query. *)
Definition get_order (oid : nat) : XM Order :=
  let^ os := xgets (fun x => orders (core x)) in
  match find (fun o => Nat.eqb (order_id o) oid) os with
  | None => xraise OrderNotFoundError
  | Some order => xret order
  end.

Section Cancellation.

(** Whether the database engine rejects a string longer than its VARCHAR
    column ([cancellation_reason] has [max_length=1000]; table models are
    not validated by pydantic, so the length is checked by the engine or
    not at all). *)
Variable enforces_varchar_length : bool.

(** [OrderController.cancel_order].  The status is set in the session and
    the cancellation added; both are written by the one commit, which fails
    on the primary key of [order_cancellation] when the order already has a
    cancellation (IntegrityError, not caught). *)
Definition cancel_order (oid uid : nat) (reason : string) : XM Order :=
  let^ order := get_order oid in
  if negb (Nat.eqb uid (order_buyer_id order))
  then xraise (Core (UserNotAllowed "cancel an order for another user"))
  else
    let cancellation := mkOrderCancellation uid (order_id order) reason in
    let^ cs := xgets order_cancellations in
    if existsb (fun c => Nat.eqb (ocan_order_id c) (order_id order)) cs
    then xraise (Core IntegrityError)
    else if enforces_varchar_length && Nat.ltb 1000 (String.length reason)
    then xraise DataError
    else
      let^ _ := xmodify (fun x =>
                  mkXdb (core x) ((order_id order, OrderStatus.CANCELED) :: order_status x)
                    (order_cancellations x ++ [cancellation])) in
      xret order.

End Cancellation.

(** [OrderController.get_cancellations]. *)
Definition get_cancellations (uid : nat) : XM (list OrderCancellation) :=
  xgets (fun x => filter (fun c => Nat.eqb (ocan_user_id c) uid) (order_cancellations x)).

(** [OrderController.get_cancellation]: a [.one()] query, not caught. *)
Definition get_cancellation (oid : nat) : XM OrderCancellation :=
  let^ cs := xgets order_cancellations in
  one (Core NoResultFound) (filter (fun c => Nat.eqb (ocan_order_id c) oid) cs).

(** [OrderController.update_order_charity]: a new contribution row, with the
    order's buyer as its user. *)
Definition update_order_charity (oid : nat) (amount : Z) : XM Order :=
  let^ order := get_order oid in
  let^ _ := lift (add_charity_contribution order amount) in
  xret order.

(** [ChatController.get_conversation]: a [.one()] query; only NoResultFound
    is caught. *)
Definition get_conversation (buyer_id seller_id iid : nat) : XM Conversation :=
  let^ cs := xgets (fun x => conversations (core x)) in
  one ConversationNotFoundErrorByUsers (filter (conv_matches buyer_id seller_id iid) cs).

(** [PaymentController.delete_payment_method].  NoResultFound becomes
    PaymentMethodDoesNotExist; every other exception is re-raised after a
    rollback.  Deleting the row makes SQLAlchemy set [payment_method_id] of
    the orders of [PaymentMethod.orders] (no delete cascade) to NULL, which
    the NOT NULL column refuses at commit (IntegrityError).  The [payment]
    table, the other one referencing it, is written by no code. *)
Definition delete_payment_method (pmid : nat) (current_user : User) : XM unit :=
  let^ pms := xgets (fun x => payment_methods (core x)) in
  let^ payment_method :=
    one PaymentMethodDoesNotExist (filter (fun p => Nat.eqb (pm_id p) pmid) pms) in
  if negb (Nat.eqb (pm_user_id payment_method) (user_id current_user))
  then xraise (Core (UserNotAllowed "delete a payment method that is not yours"))
  else
    let^ os := xgets (fun x => orders (core x)) in
    if existsb (fun o => Nat.eqb (order_payment_method_id o) (pm_id payment_method)) os
    then xraise (Core IntegrityError)
    else
      xmodify (fun x => with_core
                 (upd_payment_methods
                    (filter (fun p => negb (Nat.eqb (pm_id p) pmid))) (core x)) x).

(** [PaymentController.get_payments_method]. *)
Definition get_payments_method (current_user : User) : XM (list PaymentMethod) :=
  xgets (fun x => filter (fun p => Nat.eqb (pm_user_id p) (user_id current_user))
                    (payment_methods (core x))).

(** [PaymentController.get_payment_method]: a [.one()] query, not caught. *)
Definition get_payment_method (pmid : nat) : XM PaymentMethod :=
  let^ pms := xgets (fun x => payment_methods (core x)) in
  one (Core NoResultFound) (filter (fun p => Nat.eqb (pm_id p) pmid) pms).

(** [PaymentController.get_billing_address]: a [.one()] query, not caught. *)
Definition get_billing_address (current_user : User) : XM BillingAddress :=
  let^ bas := xgets (fun x => billing_addresses (core x)) in
  one (Core NoResultFound)
    (filter (fun b => Nat.eqb (ba_user_id b) (user_id current_user)) bas).

(** [PaymentController.create_payment_intent]. *)
Definition payment_create_payment_intent (api : StripeApi) (oid : nat)
    (current_user : User) : XM PaymentIntentResponse :=
  let^ order := get_order oid in
  lift (create_payment_intent api order current_user).

(** The sample store with no status written and no cancellation. *)
Definition xshop (ps : list Proposal) (os : list Order) (bas : list BankAccount) : xdb :=
  mkXdb (shop ps os bas) [] [].

(* ------------------------------------------------------------------------ *)
(** * General lemmas *)

Lemma get_user_store (uid : option nat) (s : db) :
  store (get_user uid s) = s.
Proof.
  destruct uid as [u|]; [|reflexivity]; cbn.
  destruct (find _ _) as [x|]; [|reflexivity].
  destruct (user_is_active x); reflexivity.
Qed.

Lemma get_user_ok (uid : option nat) (s s' : db) (x : User) :
  get_user uid s = Ok x s' -> s' = s /\ uid = Some (user_id x).
Proof.
  destruct uid as [u|]; cbn; [|discriminate].
  destruct (find _ _) as [y|] eqn:F; [|discriminate].
  apply find_some in F as [_ F]. apply Nat.eqb_eq in F.
  destruct (user_is_active y); [|discriminate].
  intros H; inversion H; subst; auto.
Qed.

Lemma get_user_err (uid : option nat) (s s' : db) (e : error) :
  get_user uid s = Err e s' ->
  e = UnboundLocalError \/ e = UserNotFoundError \/ e = UserIsInactive.
Proof.
  destruct uid as [u|]; cbn; [|intros H; inversion H; auto].
  destruct (find _ _) as [y|]; [|intros H; inversion H; auto].
  destruct (user_is_active y); intros H; inversion H; auto.
Qed.

Lemma get_user_found (u : User) (s : db) :
  find (fun x => Nat.eqb (user_id x) (user_id u)) (users s) = Some u ->
  user_is_active u = true ->
  get_user (Some (user_id u)) s = Ok u s.
Proof. intros F A; cbn; rewrite F, A; reflexivity. Qed.

Lemma find_set_proposal_status (pid : nat) (st : ProposalStatus) (ps : list Proposal) :
  option_map prop_status (find (fun p => Nat.eqb (prop_id p) pid) (set_proposal_status pid st ps))
  = option_map (fun _ => st) (find (fun p => Nat.eqb (prop_id p) pid) ps).
Proof.
  induction ps as [|p ps IH]; cbn; [reflexivity|].
  destruct (Nat.eqb (prop_id p) pid) eqn:E; cbn; [rewrite E; reflexivity|].
  rewrite E; exact IH.
Qed.

Ltac party_cases :=
  repeat match goal with
  | |- context [Nat.eqb ?a ?b] =>
      let E := fresh "E" in destruct (Nat.eqb a b) eqn:E; cbn
  end.

(* ------------------------------------------------------------------------ *)
(** * Ownership checks *)

(** C3.  Buying one's own item: with the item and the (active) current user
    stored, [create_order] raises [UserNotAllowed] and leaves the store as it
    was exactly when the buyer owns the item; accepting one's own proposal:
    with the proposal and its conversation stored, [accept_proposal] raises
    [UserNotAllowed] and changes nothing exactly when the user sent it.  In
    the other cases these two checks raise nothing. *)
Theorem own_item_and_own_proposal_rejected :
  (forall (oc : OrderCreate) (u : User) (s : db) (item : Item),
     find (fun i => Nat.eqb (item_id i) (oc_item_id oc)) (items s) = Some item ->
     find (fun x => Nat.eqb (user_id x) (user_id u)) (users s) = Some u ->
     user_is_active u = true ->
     (user_id u = item_user_id item ->
        create_order oc u s = Err (UserNotAllowed "Create an order for its own item") s) /\
     (user_id u <> item_user_id item -> forall s',
        create_order oc u s <> Err (UserNotAllowed "Create an order for its own item") s'))
  /\
  (forall (pid uid : nat) (s : db) (p : Proposal) (c : Conversation),
     find (fun q => Nat.eqb (prop_id q) pid) (proposals s) = Some p ->
     find (fun x => Nat.eqb (conv_id x) (prop_conversation_id p)) (conversations s) = Some c ->
     (prop_sender_id p = uid ->
        accept_proposal pid uid s = Err (UserNotAllowed "accept your own proposal") s) /\
     (prop_sender_id p <> uid -> forall s',
        accept_proposal pid uid s <> Err (UserNotAllowed "accept your own proposal") s')).
Proof.
  split.
  - intros oc u s item Hi Hu Ha. split.
    + intros Heq. unfold create_order, bind, gets. rewrite Hi.
      rewrite <- Heq, (get_user_found u s Hu Ha), Heq, Nat.eqb_refl.
      reflexivity.
    + intros Hne s'. unfold create_order, bind, gets. rewrite Hi.
      destruct (get_user (Some (item_user_id item)) s) as [seller s1|e s1] eqn:G.
      * apply Nat.eqb_neq in Hne. rewrite Hne.
        unfold get_accepted_proposal_price, bind, gets.
        destruct (find _ (conversations s1)); cbn;
          [destruct (find _ (proposals s1)); cbn|];
          destruct (oc_charity oc); discriminate.
      * apply get_user_err in G. intros H; inversion H; subst.
        destruct G as [G|[G|G]]; discriminate.
  - intros pid uid s p c Hp Hc. split.
    + intros Heq. unfold accept_proposal, bind, gets. rewrite Hp, Hc.
      rewrite Heq, Nat.eqb_refl. reflexivity.
    + intros Hne s'. unfold accept_proposal, bind, gets. rewrite Hp, Hc.
      apply Nat.eqb_neq in Hne. rewrite Hne.
      destruct (negb _ && negb _); cbn; discriminate.
Qed.

Lemma own_item_and_own_proposal_rejected_witness :
  create_order (mkOrderCreate 10 None) (mkUser 2 true) (shop [] [] [])
    = Err (UserNotAllowed "Create an order for its own item") (shop [] [] []) /\
  accept_proposal 30 1 (shop [accepted_80] [] [])
    = Err (UserNotAllowed "accept your own proposal") (shop [accepted_80] [] []).
Proof.
  split.
  - apply (proj1 (proj1 own_item_and_own_proposal_rejected
                    (mkOrderCreate 10 None) (mkUser 2 true) (shop [] [] [])
                    (mkItem 10 2 100) ltac:(reflexivity) ltac:(reflexivity)
                    ltac:(reflexivity))).
    reflexivity.
  - apply (proj1 (proj2 own_item_and_own_proposal_rejected
                    30 1 (shop [accepted_80] [] []) accepted_80
                    (mkConversation 20 10 1 2) ltac:(reflexivity) ltac:(reflexivity))).
    reflexivity.
Defined.

(* ------------------------------------------------------------------------ *)
(** * Refusing a proposal *)

(** C10.  With the proposal and its conversation stored, [refuse_proposal]
    raises [UserNotAllowed] exactly when the user is neither the buyer nor
    the seller of the conversation; nothing excludes the proposal's own
    sender, who, as a party, refuses it. *)
Theorem refuse_proposal_not_allowed_iff_not_party
    (pid uid : nat) (s : db) (p : Proposal) (c : Conversation) :
  find (fun q => Nat.eqb (prop_id q) pid) (proposals s) = Some p ->
  find (fun x => Nat.eqb (conv_id x) (prop_conversation_id p)) (conversations s) = Some c ->
  ((exists a s', refuse_proposal pid uid s = Err (UserNotAllowed a) s')
     <-> (uid <> conv_seller_id c /\ uid <> conv_buyer_id c))
  /\ (prop_sender_id p = uid -> (uid = conv_seller_id c \/ uid = conv_buyer_id c) ->
      exists c' s', refuse_proposal pid uid s = Ok c' s').
Proof.
  intros Hp Hc. unfold refuse_proposal, bind, gets. rewrite Hp, Hc.
  destruct (Nat.eqb (conv_seller_id c) uid) eqn:E1;
  destruct (Nat.eqb (conv_buyer_id c) uid) eqn:E2; cbn;
  apply Nat.eqb_eq in E1 || apply Nat.eqb_neq in E1;
  apply Nat.eqb_eq in E2 || apply Nat.eqb_neq in E2;
  (split; [split|]);
  try solve [ intros [a [s' H]]; discriminate
            | intros [H1 H2]; congruence
            | intros; eauto
            | intros _ [H|H]; congruence ].
Qed.

Lemma refuse_proposal_not_allowed_iff_not_party_witness :
  ((exists a s', refuse_proposal 30 1 (shop [accepted_80] [] []) = Err (UserNotAllowed a) s')
     <-> (1 <> 2 /\ 1 <> 1))
  /\ (1 = 1 -> (1 = 2 \/ 1 = 1) ->
      exists c' s', refuse_proposal 30 1 (shop [accepted_80] [] []) = Ok c' s').
Proof.
  exact (refuse_proposal_not_allowed_iff_not_party 30 1 (shop [accepted_80] [] [])
           accepted_80 (mkConversation 20 10 1 2) ltac:(reflexivity) ltac:(reflexivity)).
Defined.

(* ------------------------------------------------------------------------ *)
(** * Operations that leave the proposals table alone *)

Lemma ret_keeps {A} (a : A) : keeps_proposals (ret a).
Proof. intros st; reflexivity. Qed.

Lemma raise_keeps {A} (e : error) : keeps_proposals (@raise A e).
Proof. intros st; reflexivity. Qed.

Lemma gets_keeps {A} (f : db -> A) : keeps_proposals (gets f).
Proof. intros st; reflexivity. Qed.

Lemma fresh_id_keeps : keeps_proposals fresh_id.
Proof. intros st; reflexivity. Qed.

Lemma bind_keeps {A B} (m : M A) (k : A -> M B) :
  keeps_proposals m -> (forall a, keeps_proposals (k a)) -> keeps_proposals (bind m k).
Proof.
  intros Hm Hk st. unfold bind. specialize (Hm st).
  destruct (m st) as [a s1|e s1]; cbn in *; [rewrite Hk|]; exact Hm.
Qed.

Lemma catch_keeps {A} (m : M A) (h : error -> M A) :
  keeps_proposals m -> (forall e, keeps_proposals (h e)) -> keeps_proposals (catch m h).
Proof.
  intros Hm Hh st. unfold catch. specialize (Hm st).
  destruct (m st) as [a s1|e s1]; cbn in *; [|rewrite Hh]; exact Hm.
Qed.

Lemma get_user_keeps (uid : option nat) : keeps_proposals (get_user uid).
Proof. intros st; rewrite get_user_store; reflexivity. Qed.

Lemma get_conversation_by_id_keeps (cid : option nat) :
  keeps_proposals (get_conversation_by_id cid).
Proof.
  intros st; destruct cid; cbn; [destruct (find _ _)|]; reflexivity.
Qed.

Lemma create_conversation_keeps (b se i : nat) :
  keeps_proposals (create_conversation b se i).
Proof. intros st; reflexivity. Qed.

Lemma create_conversation_for_keeps (u : nat) (r : User) (it : Item) (i : option nat) :
  keeps_proposals (create_conversation_for u r it i).
Proof. destruct i; [apply create_conversation_keeps | apply raise_keeps]. Qed.

Lemma chat_get_item_call_keeps (i : option nat) : keeps_proposals (chat_get_item_call i).
Proof. apply raise_keeps. Qed.

Create HintDb keeps.
#[global] Hint Resolve ret_keeps raise_keeps gets_keeps fresh_id_keeps bind_keeps
  catch_keeps get_user_keeps get_conversation_by_id_keeps create_conversation_keeps
  create_conversation_for_keeps chat_get_item_call_keeps : keeps.

(** A stored proposal: what [create_proposal] appends. *)
Lemma create_proposal_using_appends
    (g : option nat -> M Item) (sender_id : nat) (pc : ProposalCreate)
    (s : db) (c : Conversation) (s' : db) :
  (forall o, keeps_proposals (g o)) ->
  create_proposal_using g sender_id pc s = Ok c s' ->
  exists pid, proposals s' = proposals s ++
    [mkProposal pid (pc_proposed_price pc) sender_id
       (if negb (Nat.eqb sender_id (conv_seller_id c)) then conv_seller_id c
        else conv_buyer_id c)
       (conv_id c) PENDING].
Proof.
  intros Hg. unfold create_proposal_using, bind at 1.
  destruct (get_user (Some sender_id) s) as [sender s1|e s1] eqn:G1; [|discriminate].
  apply get_user_ok in G1 as [-> G1]. injection G1 as G1.
  unfold bind at 1.
  destruct (get_user (pc_receiver_id pc) s) as [receiver s2|e s2] eqn:G2; [|discriminate].
  apply get_user_ok in G2 as [-> _].
  unfold bind at 1.
  match goal with |- context [catch ?m ?h s] =>
    assert (K : keeps_proposals (catch m h))
      by (apply catch_keeps; [auto with keeps|];
          intros e; destruct e; auto with keeps;
          destruct (pc_item_id pc); auto with keeps);
    specialize (K s);
    destruct (catch m h s) as [conv s3|e s3] eqn:C; [|discriminate]
  end.
  cbn in K |- *. intros H. inversion H; subst; clear H.
  exists (next_id s3). cbn. rewrite K. reflexivity.
Qed.

(* ------------------------------------------------------------------------ *)
(** * The receiver of a proposal *)

(** C4.  Whatever [receiver_id] the request declares, the proposal that
    [create_proposal] stores is addressed to the other party of the
    conversation it resolves to: the seller when the sender is not the
    seller, the buyer when the sender is the seller. *)
Theorem create_proposal_receiver_is_other_party
    (sender_id : nat) (pc : ProposalCreate) (s : db) (c : Conversation) (s' : db) :
  create_proposal sender_id pc s = Ok c s' ->
  exists p, proposals s' = proposals s ++ [p] /\
    prop_sender_id p = sender_id /\ prop_conversation_id p = conv_id c /\
    prop_receiver_id p =
      (if Nat.eqb sender_id (conv_seller_id c) then conv_buyer_id c
       else conv_seller_id c).
Proof.
  intros H. apply create_proposal_using_appends in H as [pid Hp]; [|auto with keeps].
  eexists; split; [exact Hp|]. cbn; repeat split.
  destruct (Nat.eqb sender_id (conv_seller_id c)); reflexivity.
Qed.

Lemma create_proposal_receiver_is_other_party_witness :
  exists c s' p,
    create_proposal 2 (mkProposalCreate 70 (Some 3) None (Some 20)) (shop [] [] []) = Ok c s' /\
    proposals s' = proposals (shop [] [] []) ++ [p] /\
    prop_sender_id p = 2 /\ prop_conversation_id p = conv_id c /\
    prop_receiver_id p = (if Nat.eqb 2 (conv_seller_id c) then conv_buyer_id c
                          else conv_seller_id c).
Proof.
  eexists; eexists.
  assert (H : create_proposal 2 (mkProposalCreate 70 (Some 3) None (Some 20)) (shop [] [] [])
              = Ok (mkConversation 20 10 1 2)
                   (upd_proposals (fun ps => ps ++ [mkProposal 100 70 2 1 20 PENDING])
                      (upd_next_id S (shop [] [] [])))) by reflexivity.
  destruct (create_proposal_receiver_is_other_party _ _ _ _ _ H) as [p Hp].
  exists p; split; [exact H | exact Hp].
Defined.

(* ------------------------------------------------------------------------ *)
(** * The proposal state machine *)

(** C5, as stated: accepted and rejected would be terminal for
    [accept_proposal] and [refuse_proposal].  Seller 2 refuses proposal 30,
    already accepted, and it becomes rejected. *)
Lemma proposal_status_not_terminal :
  ~ (forall (pid uid : nat) (s : db),
       (status_of pid s = Some ACCEPTED \/ status_of pid s = Some REJECTED) ->
       status_of pid (store (accept_proposal pid uid s)) = status_of pid s /\
       status_of pid (store (refuse_proposal pid uid s)) = status_of pid s).
Proof.
  intros H.
  destruct (H 30 2 (shop [accepted_80] [] [])) as [_ R]; [left; reflexivity|].
  vm_compute in R. discriminate.
Qed.

(** C5, amended.  A proposal is stored pending by [create_proposal]; once the
    proposal and its conversation are found and the authorisation checks
    pass, [accept_proposal] makes it accepted and [refuse_proposal] makes it
    rejected, whatever its status was before. *)
Theorem proposal_status_transitions :
  (forall (sender_id : nat) (pc : ProposalCreate) (s : db) (c : Conversation) (s' : db),
     create_proposal sender_id pc s = Ok c s' ->
     exists p, proposals s' = proposals s ++ [p] /\ prop_status p = PENDING)
  /\
  (forall (pid uid : nat) (s : db) (p : Proposal) (c : Conversation),
     find (fun q => Nat.eqb (prop_id q) pid) (proposals s) = Some p ->
     find (fun x => Nat.eqb (conv_id x) (prop_conversation_id p)) (conversations s) = Some c ->
     prop_sender_id p <> uid -> (uid = conv_seller_id c \/ uid = conv_buyer_id c) ->
     status_of pid (store (accept_proposal pid uid s)) = Some ACCEPTED)
  /\
  (forall (pid uid : nat) (s : db) (p : Proposal) (c : Conversation),
     find (fun q => Nat.eqb (prop_id q) pid) (proposals s) = Some p ->
     find (fun x => Nat.eqb (conv_id x) (prop_conversation_id p)) (conversations s) = Some c ->
     (uid = conv_seller_id c \/ uid = conv_buyer_id c) ->
     status_of pid (store (refuse_proposal pid uid s)) = Some REJECTED).
Proof.
  split; [|split].
  - intros sender_id pc s c s' H.
    apply create_proposal_using_appends in H as [pid Hp]; [|auto with keeps].
    eexists; split; [exact Hp | reflexivity].
  - intros pid uid s p c Hp Hc Hne Hparty.
    unfold accept_proposal, bind, gets. rewrite Hp, Hc.
    apply Nat.eqb_neq in Hne. rewrite Hne.
    assert (Hb : negb (Nat.eqb (conv_seller_id c) uid)
                 && negb (Nat.eqb (conv_buyer_id c) uid) = false)
      by (destruct Hparty as [->| ->]; rewrite Nat.eqb_refl;
          [reflexivity | apply andb_false_r]).
    rewrite Hb. unfold status_of; cbn.
    rewrite find_set_proposal_status, Hp. reflexivity.
  - intros pid uid s p c Hp Hc Hparty.
    unfold refuse_proposal, bind, gets. rewrite Hp, Hc.
    assert (Hb : negb (Nat.eqb (conv_seller_id c) uid)
                 && negb (Nat.eqb (conv_buyer_id c) uid) = false)
      by (destruct Hparty as [->| ->]; rewrite Nat.eqb_refl;
          [reflexivity | apply andb_false_r]).
    rewrite Hb. unfold status_of; cbn.
    rewrite find_set_proposal_status, Hp. reflexivity.
Qed.

Lemma proposal_status_transitions_witness :
  (exists c s' p,
     create_proposal 1 (mkProposalCreate 70 (Some 2) None (Some 20)) (shop [] [] []) = Ok c s' /\
     proposals s' = proposals (shop [] [] []) ++ [p] /\ prop_status p = PENDING) /\
  status_of 31 (store (accept_proposal 31 1 (shop [mkProposal 31 90 2 1 20 REJECTED] [] [])))
    = Some ACCEPTED /\
  status_of 30 (store (refuse_proposal 30 2 (shop [accepted_80] [] []))) = Some REJECTED.
Proof.
  destruct proposal_status_transitions as [T1 [T2 T3]].
  split; [|split].
  - assert (H : create_proposal 1 (mkProposalCreate 70 (Some 2) None (Some 20)) (shop [] [] [])
                = Ok (mkConversation 20 10 1 2)
                     (upd_proposals (fun ps => ps ++ [mkProposal 100 70 1 2 20 PENDING])
                        (upd_next_id S (shop [] [] [])))) by reflexivity.
    destruct (T1 _ _ _ _ _ H) as [p Hp].
    exists (mkConversation 20 10 1 2); eexists; exists p; split; [exact H | exact Hp].
  - apply (T2 31 1 _ (mkProposal 31 90 2 1 20 REJECTED) (mkConversation 20 10 1 2));
      [reflexivity | reflexivity | discriminate | right; reflexivity].
  - apply (T3 30 2 _ accepted_80 (mkConversation 20 10 1 2));
      [reflexivity | reflexivity | left; reflexivity].
Defined.

(* ------------------------------------------------------------------------ *)
(** * Conversations per (buyer, seller, item) *)

(** C2, as stated: from a store without duplicate triples, the operations
    keep it so.  The store [shop [] [] []] has a single conversation, for
    (1, 2, 10); [create_conversation 1 2 10] adds a second one. *)
Lemma duplicate_conversation_created :
  (forall b se i, triple_count b se i (shop [] [] []) <= 1) /\
  triple_count 1 2 10 (store (create_conversation 1 2 10 (shop [] [] []))) = 2.
Proof.
  split; [|reflexivity].
  intros b se i. unfold triple_count; cbn.
  destruct (conv_matches b se i _); cbn; auto.
Qed.

Lemma filter_app_length {A} (f : A -> bool) (l1 l2 : list A) :
  List.length (filter f (l1 ++ l2)) = List.length (filter f l1) + List.length (filter f l2).
Proof. rewrite filter_app, length_app; reflexivity. Qed.

(** C2, amended.  Nothing enforces uniqueness: [create_conversation] appends
    a new row for its triple whether or not one exists, so each call raises
    the number of conversations with that triple by one. *)
Theorem create_conversation_appends (buyer_id seller_id iid : nat) (s : db) :
  exists c, create_conversation buyer_id seller_id iid s
              = Ok c (upd_conversations (fun cs => cs ++ [c]) (upd_next_id S s)) /\
            conv_buyer_id c = buyer_id /\ conv_seller_id c = seller_id /\ conv_item_id c = iid /\
  triple_count buyer_id seller_id iid (store (create_conversation buyer_id seller_id iid s))
    = S (triple_count buyer_id seller_id iid s).
Proof.
  exists (mkConversation (next_id s) iid buyer_id seller_id); split; [reflexivity|]; repeat split.
  unfold triple_count; cbn -[filter]. rewrite filter_app_length. cbn.
  unfold conv_matches at 2; cbn. rewrite !Nat.eqb_refl; cbn. lia.
Qed.

(* ------------------------------------------------------------------------ *)
(** * Lazily created conversations *)

(** C7, as stated: a [send_message] whose [conversation_id] resolves to no
    conversation, with an [item_id], would create one.  It raises
    ConversationNotFoundError and the store is unchanged. *)
Lemma send_message_unresolved_conversation_not_created :
  send_message 1 (mkMessageCreate "hello" (Some 2) (Some 10) (Some 99)) (shop [] [] [])
    = Err ConversationNotFoundError (shop [] [] []).
Proof. reflexivity. Qed.

(** C7, amended, for whatever the controller's item lookup [g] does.
    [send_message] creates no conversation when its [conversation_id]
    resolves to nothing; it creates one when no [conversation_id] is given,
    and [create_proposal] creates one when its [conversation_id] resolves to
    nothing and an [item_id] is given.  The new conversation is for the
    requested item, its seller is the item's owner, and its buyer is the
    sender unless the sender owns the item, in which case it is the declared
    receiver. *)
Theorem lazy_conversation_parties (g : option nat -> M Item) :
  (forall (sender_id : nat) (mc : MessageCreate) (s : db) (cid : nat),
     mc_conversation_id mc = Some cid ->
     find (fun x => Nat.eqb (conv_id x) cid) (conversations s) = None ->
     outcome (send_message_using g sender_id mc s) = None /\
     conversations (store (send_message_using g sender_id mc s)) = conversations s)
  /\
  (forall (sender_id : nat) (mc : MessageCreate) (s : db) (iid : nat)
          (su ru : User) (item : Item),
     mc_conversation_id mc = None -> mc_item_id mc = Some iid ->
     get_user (Some sender_id) s = Ok su s ->
     get_user (mc_receiver_id mc) s = Ok ru s ->
     g (Some iid) s = Ok item s ->
     exists c s', send_message_using g sender_id mc s = Ok c s' /\
       conversations s' = conversations s ++ [c] /\
       conv_item_id c = iid /\ conv_seller_id c = item_user_id item /\
       conv_buyer_id c = (if Nat.eqb sender_id (item_user_id item)
                          then user_id ru else sender_id))
  /\
  (forall (sender_id : nat) (pc : ProposalCreate) (s : db) (iid : nat)
          (su ru : User) (item : Item),
     get_conversation_by_id (pc_conversation_id pc) s = Err ConversationNotFoundError s ->
     pc_item_id pc = Some iid ->
     get_user (Some sender_id) s = Ok su s ->
     get_user (pc_receiver_id pc) s = Ok ru s ->
     g (Some iid) s = Ok item s ->
     exists c s', create_proposal_using g sender_id pc s = Ok c s' /\
       conversations s' = conversations s ++ [c] /\
       conv_item_id c = iid /\ conv_seller_id c = item_user_id item /\
       conv_buyer_id c = (if Nat.eqb sender_id (item_user_id item)
                          then user_id ru else sender_id)).
Proof.
  split; [|split].
  - intros sender_id mc s cid Hc Hf.
    enough (E : exists e, send_message_using g sender_id mc s = Err e s)
      by (destruct E as [e ->]; split; reflexivity).
    unfold send_message_using, bind at 1.
    pose proof (get_user_store (Some sender_id) s) as S1.
    destruct (get_user (Some sender_id) s) as [su s1|e s1];
      cbn in S1; subst s1; [|eexists; reflexivity].
    unfold bind at 1.
    pose proof (get_user_store (mc_receiver_id mc) s) as S2.
    destruct (get_user (mc_receiver_id mc) s) as [ru s2|e s2];
      cbn in S2; subst s2; [|eexists; reflexivity].
    rewrite Hc. unfold bind at 1. cbn. rewrite Hf. eexists; reflexivity.
  - intros sender_id mc s iid su ru item Hc Hi G1 G2 Hg.
    unfold send_message_using, bind at 1. rewrite G1.
    unfold bind at 1. rewrite G2. rewrite Hc, Hi.
    unfold bind at 1 2. rewrite Hg. cbn.
    eexists; eexists; split; [reflexivity|]. cbn.
    repeat split.
    destruct (Nat.eqb sender_id (item_user_id item)); reflexivity.
  - intros sender_id pc s iid su ru item Hc Hi G1 G2 Hg.
    unfold create_proposal_using, bind at 1. rewrite G1.
    unfold bind at 1. rewrite G2.
    unfold bind at 1, catch. rewrite Hc, Hi.
    unfold bind at 1. rewrite Hg. cbn.
    eexists; eexists; split; [reflexivity|]. cbn.
    repeat split.
    destruct (Nat.eqb sender_id (item_user_id item)); reflexivity.
Qed.

Lemma lazy_conversation_parties_witness :
  let g := fun (_ : option nat) => ret (mkItem 10 2 100) in
  (outcome (send_message_using g 1 (mkMessageCreate "hello" (Some 2) (Some 10) (Some 99))
              (shop [] [] [])) = None /\
   conversations (store (send_message_using g 1
                           (mkMessageCreate "hello" (Some 2) (Some 10) (Some 99))
                           (shop [] [] []))) = conversations (shop [] [] []))
  /\
  (exists c s', send_message_using g 2 (mkMessageCreate "hello" (Some 1) (Some 10) None)
                  (shop [] [] []) = Ok c s' /\
     conversations s' = conversations (shop [] [] []) ++ [c] /\
     conv_item_id c = 10 /\ conv_seller_id c = 2 /\
     conv_buyer_id c = (if Nat.eqb 2 2 then 1 else 2))
  /\
  (exists c s', create_proposal_using g 1 (mkProposalCreate 70 (Some 2) (Some 10) (Some 99))
                  (shop [] [] []) = Ok c s' /\
     conversations s' = conversations (shop [] [] []) ++ [c] /\
     conv_item_id c = 10 /\ conv_seller_id c = 2 /\
     conv_buyer_id c = (if Nat.eqb 1 2 then 2 else 1)).
Proof.
  intros g. destruct (lazy_conversation_parties g) as [T1 [T2 T3]].
  split; [|split].
  - exact (T1 1 (mkMessageCreate "hello" (Some 2) (Some 10) (Some 99)) (shop [] [] []) 99
             ltac:(reflexivity) ltac:(reflexivity)).
  - exact (T2 2 (mkMessageCreate "hello" (Some 1) (Some 10) None) (shop [] [] []) 10
             (mkUser 2 true) (mkUser 1 true) (mkItem 10 2 100)
             ltac:(reflexivity) ltac:(reflexivity) ltac:(reflexivity)
             ltac:(reflexivity) ltac:(reflexivity)).
  - exact (T3 1 (mkProposalCreate 70 (Some 2) (Some 10) (Some 99)) (shop [] [] []) 10
             (mkUser 1 true) (mkUser 2 true) (mkItem 10 2 100)
             ltac:(reflexivity) ltac:(reflexivity) ltac:(reflexivity)
             ltac:(reflexivity) ltac:(reflexivity)).
Defined.

(* ------------------------------------------------------------------------ *)
(** * The price of an order *)

(** C1, as stated: the order's price would be the price of any accepted
    proposal of the buyer's conversation about the item.  With proposals 30
    (80) and 31 (90) both accepted in conversation 20, the order costs 80. *)
Lemma create_order_price_not_every_accepted :
  ~ (forall (oc : OrderCreate) (u : User) (s : db) (item : Item) (o : Order) (s' : db)
            (c : Conversation) (p : Proposal),
       find (fun i => Nat.eqb (item_id i) (oc_item_id oc)) (items s) = Some item ->
       create_order oc u s = Ok o s' ->
       In c (conversations s) ->
       conv_matches (user_id u) (item_user_id item) (oc_item_id oc) c = true ->
       In p (proposals s) -> accepted_in c p = true ->
       order_total_price o = prop_proposed_price p).
Proof.
  intros H.
  set (s := shop [accepted_80; accepted_90] [] []).
  set (r := create_order (mkOrderCreate 10 None) (mkUser 1 true) s).
  assert (E : r = Ok (mkOrder 102 10 1 2 80 100 101 "pending" None) (store r))
    by reflexivity.
  specialize (H (mkOrderCreate 10 None) (mkUser 1 true) s (mkItem 10 2 100)
                (mkOrder 102 10 1 2 80 100 101 "pending" None) (store r)
                (mkConversation 20 10 1 2) accepted_90
                ltac:(reflexivity) E).
  assert (H90 : 80%Z = 90%Z) by (apply H; cbn; auto).
  discriminate.
Qed.

Lemma create_order_price (oc : OrderCreate) (u : User) (s : db) (item : Item)
    (o : Order) (s' : db) :
  find (fun i => Nat.eqb (item_id i) (oc_item_id oc)) (items s) = Some item ->
  create_order oc u s = Ok o s' ->
  user_id u <> item_user_id item /\
  exists accepted,
    get_accepted_proposal_price oc (user_id u) (item_user_id item) s = Ok accepted s /\
    order_total_price o = py_or accepted (item_price item).
Proof.
  intros Hi. unfold create_order, bind at 1, gets. rewrite Hi.
  unfold bind at 1.
  destruct (get_user (Some (item_user_id item)) s) as [seller s1|e s1] eqn:G;
    [|discriminate].
  apply get_user_ok in G as [-> G]. injection G as G. rewrite G.
  destruct (Nat.eqb (user_id u) (user_id seller)) eqn:Eb; [discriminate|].
  apply Nat.eqb_neq in Eb. split; [exact Eb|].
  assert (A : exists a, get_accepted_proposal_price oc (user_id u) (user_id seller) s = Ok a s).
  { unfold get_accepted_proposal_price, bind, gets.
    destruct (find _ (conversations s)); [destruct (find _ (proposals s))|];
      eexists; reflexivity. }
  destruct A as [a A]. unfold bind at 1 in H. rewrite A in H. cbn in H.
  exists a; split; [exact A|].
  destruct (oc_charity oc); cbn in H; inversion H; reflexivity.
Qed.

(** C1, amended.  When [create_order] creates an order for a buyer who does
    not own the item, its total price is the proposed price of the first
    accepted proposal, in the database's order, of the first conversation
    matching (buyer, item owner, item), when there is one and its price is
    not zero (a validated proposal price is positive); otherwise it is the
    item's list price. *)
Theorem create_order_total_price (oc : OrderCreate) (u : User) (s : db) (item : Item)
    (o : Order) (s' : db) :
  find (fun i => Nat.eqb (item_id i) (oc_item_id oc)) (items s) = Some item ->
  create_order oc u s = Ok o s' ->
  user_id u <> item_user_id item /\
  (forall c p,
     find (conv_matches (user_id u) (item_user_id item) (oc_item_id oc)) (conversations s) = Some c ->
     find (accepted_in c) (proposals s) = Some p ->
     prop_proposed_price p <> 0%Z ->
     order_total_price o = prop_proposed_price p) /\
  (forall c,
     find (conv_matches (user_id u) (item_user_id item) (oc_item_id oc)) (conversations s) = Some c ->
     find (accepted_in c) (proposals s) = None ->
     order_total_price o = item_price item) /\
  (find (conv_matches (user_id u) (item_user_id item) (oc_item_id oc)) (conversations s) = None ->
   order_total_price o = item_price item).
Proof.
  intros Hi H. destruct (create_order_price oc u s item o s' Hi H) as [Hne [a [A P]]].
  split; [exact Hne|]. rewrite P.
  unfold get_accepted_proposal_price, bind, gets in A.
  split; [|split].
  - intros c p Hc Hp Hz. rewrite Hc, Hp in A. injection A as <-. cbn.
    apply Z.eqb_neq in Hz. rewrite Hz. reflexivity.
  - intros c Hc Hp. rewrite Hc, Hp in A. injection A as <-. reflexivity.
  - intros Hc. rewrite Hc in A. injection A as <-. reflexivity.
Qed.

Lemma create_order_total_price_witness :
  exists o s',
    create_order (mkOrderCreate 10 None) (mkUser 1 true) (shop [accepted_80] [] []) = Ok o s' /\
    order_total_price o = prop_proposed_price accepted_80.
Proof.
  set (s := shop [accepted_80] [] []).
  set (r := create_order (mkOrderCreate 10 None) (mkUser 1 true) s).
  assert (E : r = Ok (mkOrder 102 10 1 2 80 100 101 "pending" None) (store r))
    by reflexivity.
  exists (mkOrder 102 10 1 2 80 100 101 "pending" None), (store r). split; [exact E|].
  destruct (create_order_total_price (mkOrderCreate 10 None) (mkUser 1 true) s
              (mkItem 10 2 100) _ _ ltac:(reflexivity) E) as [_ [T _]].
  apply (T (mkConversation 20 10 1 2) accepted_80); [reflexivity | reflexivity | discriminate].
Defined.

(* ------------------------------------------------------------------------ *)
(** * Payment confirmation *)

Lemma find_mark_paid (oid : nat) (iid : string) (os : list Order) :
  find (fun x => Nat.eqb (order_id x) oid) (mark_paid oid iid os)
  = option_map (fun o => mkOrder (order_id o) (order_item_id o) (order_buyer_id o)
                           (order_seller_id o) (order_total_price o)
                           (order_payment_method_id o) (order_billing_address_id o)
                           "paid" (Some iid))
               (find (fun x => Nat.eqb (order_id x) oid) os).
Proof.
  induction os as [|o os IH]; cbn; [reflexivity|].
  destruct (Nat.eqb (order_id o) oid) eqn:E; cbn; rewrite E; [reflexivity | exact IH].
Qed.

(** C6: the seller has no bank account.  Seller 2 has none; the intent of
    order 40 has succeeded and the order is pending.  [bank_accounts[0]]
    raises IndexError: the order stays pending and no payout is recorded. *)
Lemma confirm_payment_no_bank_account :
  confirm_payment [intent_40] "pi_1" (shop [] [pending_order] [])
    = Err IndexError (shop [] [pending_order] []).
Proof. reflexivity. Qed.

(** X20.  When the seller has a bank account, a succeeded intent of a not yet paid
    order marks the order paid with the intent's id and appends one payout
    of [base_amount - platform_fee] for it. *)
Lemma confirm_payment_records_payout (intents : list PaymentIntent) (pid : string)
    (s : db) (intent : PaymentIntent) (oid : nat) (o : Order) (bank : BankAccount) :
  find (fun i => String.eqb (pi_id i) pid) intents = Some intent ->
  pi_meta_order_id intent = Some oid ->
  find (fun x => Nat.eqb (order_id x) oid) (orders s) = Some o ->
  order_payment_status o <> "paid" -> pi_status intent = "succeeded" ->
  hd_error (filter (fun b => Nat.eqb (bank_user_id b) (order_seller_id o)) (bank_accounts s))
    = Some bank ->
  exists r s', confirm_payment intents pid s = Ok r s' /\
    orders s' = mark_paid oid (pi_id intent) (orders s) /\
    payouts s' = payouts s ++
      [mkPayout (order_id o) (order_seller_id o) (pi_meta_base_amount intent)
         (pi_meta_platform_fee intent)
         (pi_meta_base_amount intent - pi_meta_platform_fee intent)%Z
         "completed" (pi_id intent) (bank_id bank)].
Proof.
  intros Hi Ho Hf Hp Hs Hb. unfold confirm_payment. rewrite Hi, Ho.
  unfold bind, gets. rewrite Hf.
  apply String.eqb_neq in Hp. rewrite Hp, Hs. cbn.
  destruct (filter _ (bank_accounts s)) as [|b rest]; cbn in Hb; [discriminate|].
  injection Hb as ->. cbn.
  eexists; eexists; split; [reflexivity|]. split; reflexivity.
Qed.

(** C8.  Once the order is paid, [confirm_payment] on its intent changes
    nothing; in particular a second call after a successful first one leaves
    the orders and the payouts as the first call left them. *)
Theorem confirm_payment_idempotent :
  (forall (intents : list PaymentIntent) (pid : string) (s : db)
          (intent : PaymentIntent) (oid : nat) (o : Order),
     find (fun i => String.eqb (pi_id i) pid) intents = Some intent ->
     pi_meta_order_id intent = Some oid ->
     find (fun x => Nat.eqb (order_id x) oid) (orders s) = Some o ->
     order_payment_status o = "paid" ->
     confirm_payment intents pid s
       = Ok (mkPaymentIntentResponse (pi_client_secret intent) (pi_id intent)) s)
  /\
  (forall (intents : list PaymentIntent) (pid : string) (s s1 : db)
          (r : PaymentIntentResponse),
     confirm_payment intents pid s = Ok r s1 ->
     confirm_payment intents pid s1 = Ok r s1).
Proof.
  split.
  - intros intents pid s intent oid o Hi Ho Hf Hp.
    unfold confirm_payment. rewrite Hi, Ho. unfold bind, gets. rewrite Hf, Hp.
    reflexivity.
  - intros intents pid s s1 r. unfold confirm_payment.
    destruct (find _ intents) as [intent|]; [|discriminate].
    destruct (pi_meta_order_id intent) as [oid|]; [|discriminate].
    unfold bind, gets.
    destruct (find (fun x => Nat.eqb (order_id x) oid) (orders s)) as [o|] eqn:Hf;
      [|discriminate].
    destruct (negb (String.eqb (order_payment_status o) "paid")
              && String.eqb (pi_status intent) "succeeded") eqn:C.
    + unfold seller_bank_accounts, bind, gets.
      destruct (filter _ (bank_accounts s)) as [|b rest]; [discriminate|].
      cbn. intros H; inversion H; subst; clear H. cbn.
      rewrite find_mark_paid, Hf. reflexivity.
    + intros H; inversion H; subst. rewrite Hf, C. reflexivity.
Qed.

Lemma confirm_payment_idempotent_witness :
  confirm_payment [intent_40] "pi_1"
      (shop [] [mkOrder 40 10 1 2 80 41 42 "paid" (Some "pi_1")] [mkBankAccount 50 2])
    = Ok (mkPaymentIntentResponse "secret_1" "pi_1")
         (shop [] [mkOrder 40 10 1 2 80 41 42 "paid" (Some "pi_1")] [mkBankAccount 50 2]) /\
  (let s1 := store (confirm_payment [intent_40] "pi_1"
                      (shop [] [pending_order] [mkBankAccount 50 2])) in
   confirm_payment [intent_40] "pi_1" s1
     = Ok (mkPaymentIntentResponse "secret_1" "pi_1") s1).
Proof.
  destruct confirm_payment_idempotent as [T1 T2]. split.
  - exact (T1 [intent_40] "pi_1"
             (shop [] [mkOrder 40 10 1 2 80 41 42 "paid" (Some "pi_1")] [mkBankAccount 50 2])
             intent_40 40
             (mkOrder 40 10 1 2 80 41 42 "paid" (Some "pi_1"))
             ltac:(reflexivity) ltac:(reflexivity) ltac:(reflexivity) ltac:(reflexivity)).
  - cbv zeta.
    apply (T2 [intent_40] "pi_1" (shop [] [pending_order] [mkBankAccount 50 2])).
    reflexivity.
Defined.

(* ------------------------------------------------------------------------ *)
(** * Creating a payment intent *)

(** C9, as stated: a caller other than the buyer gets UserNotAllowed, and an
    order whose total is at most zero gets InvalidPaymentAmountError.  For
    order 40 at price 0, when the seller has no Stripe account yet and
    Stripe refuses to create one, the buyer gets PaymentIntentCreationError. *)
Lemma create_payment_intent_amount_check_preempted :
  create_payment_intent (mkStripeApi None true None)
      (mkOrder 40 10 1 2 0 41 42 "pending" None) (mkUser 1 true) (shop [] [] [])
    = Err PaymentIntentCreationError (shop [] [] []).
Proof. reflexivity. Qed.

(** C9, amended.  A caller other than the buyer gets UserNotAllowed, before
    anything else.  For the buyer and a total of at most zero, the result is
    InvalidPaymentAmountError, unless the seller has no Stripe seller account
    and Stripe fails to create one, which gives PaymentIntentCreationError
    first; a seller account created on the way is kept.  No payment intent
    is returned in any of these cases. *)
Theorem create_payment_intent_guards (api : StripeApi) (order : Order) (u : User) (s : db) :
  (user_id u <> order_buyer_id order ->
     create_payment_intent api order u s
       = Err (UserNotAllowed "Create a payment intent for an order that is not yours") s)
  /\
  (user_id u = order_buyer_id order -> (order_total_price order <= 0)%Z ->
     (find (fun a => Nat.eqb (ssa_user_id a) (order_seller_id order))
           (stripe_seller_accounts s) <> None \/ api_account_create api <> None) ->
     exists s', create_payment_intent api order u s = Err InvalidPaymentAmountError s')
  /\
  (user_id u = order_buyer_id order ->
     find (fun a => Nat.eqb (ssa_user_id a) (order_seller_id order))
          (stripe_seller_accounts s) = None ->
     api_account_create api = None ->
     create_payment_intent api order u s = Err PaymentIntentCreationError s).
Proof.
  split; [|split].
  - intros Hne. unfold create_payment_intent.
    apply Nat.eqb_neq in Hne. rewrite Hne. reflexivity.
  - intros Heq Hle Hacc. unfold create_payment_intent.
    rewrite Heq, Nat.eqb_refl. cbn.
    apply Z.leb_le in Hle.
    unfold bind, gets.
    destruct (find _ (stripe_seller_accounts s)) as [a|].
    + cbn. rewrite Hle. eexists; reflexivity.
    + destruct (api_account_create api) as [acct|].
      * cbn. rewrite Hle. eexists; reflexivity.
      * destruct Hacc as [H|H]; exfalso; apply H; reflexivity.
  - intros Heq Hf Ha. unfold create_payment_intent.
    rewrite Heq, Nat.eqb_refl. cbn. unfold bind, gets. rewrite Hf, Ha. reflexivity.
Qed.

Lemma create_payment_intent_guards_witness :
  create_payment_intent (mkStripeApi None true None)
      (mkOrder 40 10 1 2 0 41 42 "pending" None) (mkUser 3 true) (shop [] [] [])
    = Err (UserNotAllowed "Create a payment intent for an order that is not yours")
          (shop [] [] []) /\
  (exists s', create_payment_intent (mkStripeApi (Some "acct_2") true None)
                (mkOrder 40 10 1 2 0 41 42 "pending" None) (mkUser 1 true) (shop [] [] [])
              = Err InvalidPaymentAmountError s') /\
  create_payment_intent (mkStripeApi None true None)
      (mkOrder 40 10 1 2 0 41 42 "pending" None) (mkUser 1 true) (shop [] [] [])
    = Err PaymentIntentCreationError (shop [] [] []).
Proof.
  split; [|split].
  - apply (proj1 (create_payment_intent_guards (mkStripeApi None true None)
                    (mkOrder 40 10 1 2 0 41 42 "pending" None) (mkUser 3 true)
                    (shop [] [] []))).
    cbn; lia.
  - apply (proj1 (proj2 (create_payment_intent_guards (mkStripeApi (Some "acct_2") true None)
                           (mkOrder 40 10 1 2 0 41 42 "pending" None) (mkUser 1 true)
                           (shop [] [] [])))).
    + reflexivity.
    + cbn; lia.
    + right; discriminate.
  - apply (proj2 (proj2 (create_payment_intent_guards (mkStripeApi None true None)
                           (mkOrder 40 10 1 2 0 41 42 "pending" None) (mkUser 1 true)
                           (shop [] [] []))));
      reflexivity.
Defined.

(* ------------------------------------------------------------------------ *)
(** * Lemmas on the rest of the controllers *)

Lemma find_order_id (oid : nat) (os : list Order) (o : Order) :
  find (fun o => Nat.eqb (order_id o) oid) os = Some o -> order_id o = oid /\ In o os.
Proof.
  intros F. apply find_some in F as [I E]. apply Nat.eqb_eq in E. auto.
Qed.

Lemma get_order_found (oid : nat) (x : xdb) (o : Order) :
  find (fun o => Nat.eqb (order_id o) oid) (orders (core x)) = Some o ->
  get_order oid x = XOk o x.
Proof. intros F. unfold get_order, xbind, xgets. rewrite F. reflexivity. Qed.

Lemma get_order_missing (oid : nat) (x : xdb) :
  find (fun o => Nat.eqb (order_id o) oid) (orders (core x)) = None ->
  get_order oid x = XErr OrderNotFoundError x.
Proof. intros F. unfold get_order, xbind, xgets. rewrite F. reflexivity. Qed.

(** What a successful cancellation read and wrote. *)
Lemma cancel_order_ok_inv (b : bool) (oid uid : nat) (r : string) (x x' : xdb) (o : Order) :
  cancel_order b oid uid r x = XOk o x' ->
  find (fun o => Nat.eqb (order_id o) oid) (orders (core x)) = Some o /\
  uid = order_buyer_id o /\
  existsb (fun c => Nat.eqb (ocan_order_id c) (order_id o)) (order_cancellations x) = false /\
  x' = mkXdb (core x) ((order_id o, OrderStatus.CANCELED) :: order_status x)
         (order_cancellations x ++ [mkOrderCancellation uid (order_id o) r]).
Proof.
  unfold cancel_order, get_order, xbind, xgets. intros H.
  destruct (find _ (orders (core x))) as [o0|] eqn:F; cbn -[Nat.ltb] in H; [|discriminate].
  destruct (Nat.eqb uid (order_buyer_id o0)) eqn:U; cbn -[Nat.ltb] in H; [|discriminate].
  destruct (existsb _ _) eqn:C; cbn -[Nat.ltb] in H; [discriminate|].
  destruct (b && Nat.ltb 1000 (String.length r)); cbn -[Nat.ltb] in H; [discriminate|].
  injection H as <- <-.
  apply Nat.eqb_eq in U. auto.
Qed.

Lemma filter_none {A} (f : A -> bool) (l : list A) :
  existsb f l = false -> filter f l = [].
Proof.
  induction l as [|a l IH]; cbn; [reflexivity|].
  destruct (f a); cbn; [discriminate|exact IH].
Qed.

(** X1. cancel_order by anyone but the order's buyer, or of an order that
    does not exist, raises an error and changes nothing. *)
Theorem cancel_order_only_buyer (b : bool) (oid uid : nat) (reason : string) (x : xdb) :
  (forall o, find (fun o => Nat.eqb (order_id o) oid) (orders (core x)) = Some o ->
             uid <> order_buyer_id o) ->
  exists e, cancel_order b oid uid reason x = XErr e x /\
    (e = OrderNotFoundError \/ e = Core (UserNotAllowed "cancel an order for another user")).
Proof.
  intros H. unfold cancel_order, get_order, xbind, xgets.
  destruct (find _ (orders (core x))) as [o|] eqn:F; cbn -[Nat.ltb].
  - specialize (H o eq_refl). apply Nat.eqb_neq in H. rewrite H. cbn.
    eexists; split; [reflexivity | right; reflexivity].
  - eexists; split; [reflexivity | left; reflexivity].
Qed.

Lemma cancel_order_only_buyer_witness :
  exists e, cancel_order true 40 3 "changed my mind" (xshop [] [pending_order] []) = XErr e
              (xshop [] [pending_order] []) /\
    (e = OrderNotFoundError \/ e = Core (UserNotAllowed "cancel an order for another user")).
Proof.
  apply cancel_order_only_buyer. intros o F. cbn in F. injection F as <-. cbn. lia.
Defined.

(** X2. the buyer cancels an order that has no cancellation yet (with a
    reason the column accepts): its status becomes CANCELED whatever it
    was, one cancellation is recorded, other orders keep their status, and
    nothing else changes; in particular a paid order stays paid and its
    payout stays recorded. *)
Theorem cancel_order_by_buyer (b : bool) (oid : nat) (reason : string) (x : xdb) (o : Order) :
  find (fun o => Nat.eqb (order_id o) oid) (orders (core x)) = Some o ->
  (forall c, In c (order_cancellations x) -> ocan_order_id c <> oid) ->
  String.length reason <= 1000 ->
  exists x', cancel_order b oid (order_buyer_id o) reason x = XOk o x' /\
    core x' = core x /\
    status_of_order oid x' = OrderStatus.CANCELED /\
    (forall oid', oid' <> oid -> status_of_order oid' x' = status_of_order oid' x) /\
    order_cancellations x'
      = order_cancellations x ++ [mkOrderCancellation (order_buyer_id o) oid reason].
Proof.
  intros F NC L. destruct (find_order_id _ _ _ F) as [Eo _].
  unfold cancel_order, get_order, xbind, xgets. rewrite F. cbn -[Nat.ltb].
  rewrite Nat.eqb_refl. cbn -[Nat.ltb].
  replace (existsb _ (order_cancellations x)) with false.
  2:{ symmetry. apply Bool.not_true_iff_false. intros E.
      apply existsb_exists in E as [c [I E]]. apply Nat.eqb_eq in E.
      apply (NC c I). congruence. }
  replace (Nat.ltb 1000 (String.length reason)) with false
    by (symmetry; apply Nat.ltb_ge; exact L).
  rewrite Bool.andb_false_r. cbn.
  eexists; split; [reflexivity|]. rewrite Eo. cbn.
  split; [reflexivity|]. unfold status_of_order; cbn. rewrite Nat.eqb_refl.
  split; [reflexivity|]. split; [|reflexivity].
  intros oid' N. cbn. apply Nat.eqb_neq in N. rewrite Nat.eqb_sym, N. reflexivity.
Qed.

Lemma cancel_order_by_buyer_witness :
  exists x', cancel_order true 40 1 "changed my mind" (xshop [] [pending_order] [])
               = XOk pending_order x' /\
    core x' = core (xshop [] [pending_order] []) /\
    status_of_order 40 x' = OrderStatus.CANCELED /\
    (forall oid', oid' <> 40 -> status_of_order oid' x'
                                  = status_of_order oid' (xshop [] [pending_order] [])) /\
    order_cancellations x'
      = order_cancellations (xshop [] [pending_order] [])
        ++ [mkOrderCancellation 1 40 "changed my mind"].
Proof.
  apply (cancel_order_by_buyer true 40 "changed my mind" (xshop [] [pending_order] [])
           pending_order).
  - reflexivity.
  - intros c I. destruct I.
  - cbn. lia.
Defined.



(** X4. after a successful cancel_order, get_cancellation of the order
    returns the recorded cancellation, and get_cancellations of the user
    lists it after the user's earlier ones. *)
Theorem cancel_order_then_get_cancellation (b : bool) (oid uid : nat) (r : string)
    (x x' : xdb) (o : Order) :
  cancel_order b oid uid r x = XOk o x' ->
  get_cancellation oid x' = XOk (mkOrderCancellation uid oid r) x' /\
  get_cancellations uid x'
    = XOk (filter (fun c => Nat.eqb (ocan_user_id c) uid) (order_cancellations x)
           ++ [mkOrderCancellation uid oid r]) x'.
Proof.
  intros H. apply cancel_order_ok_inv in H as (F & U & NC & ->).
  destruct (find_order_id _ _ _ F) as [Eo _]. rewrite Eo in NC |- *.
  split.
  - unfold get_cancellation, xbind, xgets. cbn [order_cancellations].
    rewrite filter_app, (filter_none _ _ NC). cbn. rewrite Nat.eqb_refl. reflexivity.
  - unfold get_cancellations, xgets. cbn [order_cancellations].
    rewrite filter_app. cbn. rewrite Nat.eqb_refl. reflexivity.
Qed.

Lemma cancel_order_then_get_cancellation_witness :
  exists x', cancel_order false 40 1 "changed my mind" (xshop [] [pending_order] [])
               = XOk pending_order x' /\
    get_cancellation 40 x' = XOk (mkOrderCancellation 1 40 "changed my mind") x' /\
    get_cancellations 1 x' = XOk ([] ++ [mkOrderCancellation 1 40 "changed my mind"]) x'.
Proof.
  eexists; split; [cbv; reflexivity|].
  apply (cancel_order_then_get_cancellation false 40 1 "changed my mind"
           (xshop [] [pending_order] []) _ pending_order).
  reflexivity.
Defined.

Lemma get_accepted_proposal_price_store (oc : OrderCreate) (b se : nat) (s : db) :
  exists a, get_accepted_proposal_price oc b se s = Ok a s.
Proof.
  unfold get_accepted_proposal_price, bind, gets.
  destruct (find _ (conversations s)); [destruct (find _ (proposals s))|];
    eexists; reflexivity.
Qed.

(** What a successful [create_order] wrote. *)
Lemma create_order_ok_inv (oc : OrderCreate) (u : User) (s : db) (o : Order) (s' : db) :
  create_order oc u s = Ok o s' ->
  (exists item, find (fun i => Nat.eqb (item_id i) (oc_item_id oc)) (items s) = Some item /\
     user_id u <> item_user_id item /\ order_seller_id o = item_user_id item) /\
  order_id o = next_id s + 2 /\
  order_buyer_id o = user_id u /\ order_item_id o = oc_item_id oc /\
  order_payment_method_id o = next_id s /\ order_billing_address_id o = S (next_id s) /\
  order_payment_status o = "pending" /\ order_stripe_payment_intent_id o = None /\
  orders s' = orders s ++ [o] /\
  payment_methods s' = payment_methods s ++ [mkPaymentMethod (order_payment_method_id o) (user_id u)] /\
  billing_addresses s'
    = billing_addresses s ++ [mkBillingAddress (order_billing_address_id o) (user_id u)] /\
  charity_contributions s'
    = charity_contributions s ++
      match oc_charity oc with
      | Some a => [mkCharity (order_id o) (user_id u) a]
      | None => []
      end /\
  users s' = users s /\ items s' = items s /\ conversations s' = conversations s /\
  messages s' = messages s /\ proposals s' = proposals s /\
  bank_accounts s' = bank_accounts s /\
  stripe_seller_accounts s' = stripe_seller_accounts s /\ payouts s' = payouts s /\
  next_id s' = next_id s + 3.
Proof.
  unfold create_order, bind at 1, gets. intros H.
  destruct (find _ (items s)) as [item|] eqn:Hi; [|discriminate].
  unfold bind at 1 in H.
  destruct (get_user (Some (item_user_id item)) s) as [seller s1|e s1] eqn:G;
    [|discriminate].
  apply get_user_ok in G as [-> G]. injection G as G. rewrite <- G in H.
  destruct (Nat.eqb (user_id u) (item_user_id item)) eqn:Eb; [discriminate|].
  apply Nat.eqb_neq in Eb.
  destruct (get_accepted_proposal_price_store oc (user_id u) (item_user_id item) s) as [a A].
  unfold bind at 1 in H. rewrite A in H. cbn in H.
  destruct (oc_charity oc) as [c|]; cbn in H; injection H as <- <-; cbn;
    repeat split; try reflexivity; try lia;
    try (exists item; split; [reflexivity|split; [exact Eb|reflexivity]]);
    symmetry; apply app_nil_r.
Qed.

(** X5. a successful create_order appends exactly one order, for the
    current user as buyer and the item's owner as seller, with payment
    status "pending" and no payment intent; it saves one new payment method
    and one new billing address, both the buyer's and both referenced by the
    order, adds a charity contribution exactly when one was requested, and
    changes no other table. *)
Theorem create_order_writes (oc : OrderCreate) (u : User) (s : db) (o : Order) (s' : db) :
  create_order oc u s = Ok o s' ->
  (exists item, find (fun i => Nat.eqb (item_id i) (oc_item_id oc)) (items s) = Some item /\
     user_id u <> item_user_id item /\ order_seller_id o = item_user_id item) /\
  order_buyer_id o = user_id u /\ order_item_id o = oc_item_id oc /\
  order_payment_status o = "pending" /\ order_stripe_payment_intent_id o = None /\
  orders s' = orders s ++ [o] /\
  payment_methods s' = payment_methods s ++ [mkPaymentMethod (order_payment_method_id o) (user_id u)] /\
  billing_addresses s'
    = billing_addresses s ++ [mkBillingAddress (order_billing_address_id o) (user_id u)] /\
  charity_contributions s'
    = charity_contributions s ++
      match oc_charity oc with
      | Some a => [mkCharity (order_id o) (user_id u) a]
      | None => []
      end /\
  users s' = users s /\ items s' = items s /\ conversations s' = conversations s /\
  messages s' = messages s /\ proposals s' = proposals s /\
  bank_accounts s' = bank_accounts s /\
  stripe_seller_accounts s' = stripe_seller_accounts s /\ payouts s' = payouts s.
Proof.
  intros H. apply create_order_ok_inv in H.
  destruct H as (I & _ & B & It & _ & _ & P & N & O & PM & BA & CC & U & Is & C & Ms & Ps
                 & Bs & Ss & Po & _).
  repeat split; assumption.
Qed.

Lemma create_order_writes_witness :
  exists o s', create_order (mkOrderCreate 10 (Some 5%Z)) (mkUser 1 true) (shop [] [] [])
                 = Ok o s' /\
  ((exists item, find (fun i => Nat.eqb (item_id i) 10) (items (shop [] [] [])) = Some item /\
     1 <> item_user_id item /\ order_seller_id o = item_user_id item) /\
  order_buyer_id o = 1 /\ order_item_id o = 10 /\
  order_payment_status o = "pending" /\ order_stripe_payment_intent_id o = None /\
  orders s' = orders (shop [] [] []) ++ [o] /\
  payment_methods s' = payment_methods (shop [] [] []) ++ [mkPaymentMethod (order_payment_method_id o) 1] /\
  billing_addresses s'
    = billing_addresses (shop [] [] []) ++ [mkBillingAddress (order_billing_address_id o) 1] /\
  charity_contributions s'
    = charity_contributions (shop [] [] []) ++ [mkCharity (order_id o) 1 5%Z] /\
  users s' = users (shop [] [] []) /\ items s' = items (shop [] [] []) /\
  conversations s' = conversations (shop [] [] []) /\
  messages s' = messages (shop [] [] []) /\ proposals s' = proposals (shop [] [] []) /\
  bank_accounts s' = bank_accounts (shop [] [] []) /\
  stripe_seller_accounts s' = stripe_seller_accounts (shop [] [] []) /\
  payouts s' = payouts (shop [] [] [])).
Proof.
  do 2 eexists. split; [cbv; reflexivity|].
  exact (create_order_writes (mkOrderCreate 10 (Some 5%Z)) (mkUser 1 true) (shop [] [] [])
           _ _ eq_refl).
Defined.



(** X7. create_order does not look at existing orders: after a successful
    order, the same buyer can order the same item again, which creates a
    second, distinct order for it. *)
Theorem create_order_again (oc : OrderCreate) (u : User) (s : db) (o1 : Order) (s1 : db) :
  create_order oc u s = Ok o1 s1 ->
  exists o2 s2, create_order oc u s1 = Ok o2 s2 /\
    order_item_id o2 = order_item_id o1 /\ order_buyer_id o2 = order_buyer_id o1 /\
    order_id o2 <> order_id o1 /\ orders s2 = orders s ++ [o1; o2].
Proof.
  intros H. pose proof (create_order_ok_inv _ _ _ _ _ H) as
    ((item & Hi & Ne & Se) & Id & B & It & _ & _ & _ & _ & O & _ & _ & _ & Us & Is & Cs
     & _ & Ps & _ & _ & _ & Nx).
  unfold create_order at 1, bind at 1, gets. rewrite Is, Hi.
  unfold bind at 1.
  pose proof (get_user_store (Some (item_user_id item)) s) as St.
  destruct (get_user (Some (item_user_id item)) s) as [seller s0|e0 s0] eqn:G.
  2:{ exfalso. unfold create_order, bind at 1, gets in H. rewrite Hi in H.
      unfold bind at 1 in H. rewrite G in H. discriminate. }
  assert (G1 : get_user (Some (item_user_id item)) s1 = Ok seller s1).
  { revert G. unfold get_user, bind, gets. rewrite Us.
    intros K. destruct (find _ (users s)) as [y|]; cbn in K; [|discriminate].
    destruct (user_is_active y); cbn in K; [|discriminate].
    injection K as -> _; reflexivity. }
  rewrite G1. apply get_user_ok in G as [_ G]. injection G as G. rewrite <- G.
  apply Nat.eqb_neq in Ne. rewrite Ne.
  destruct (get_accepted_proposal_price_store oc (user_id u) (item_user_id item) s1) as [a A].
  unfold bind at 1. rewrite A. cbn.
  destruct (oc_charity oc); cbn; do 2 eexists; (split; [reflexivity|]); cbn;
    rewrite It, B, Id, Nx, O; (split; [reflexivity|]); (split; [reflexivity|]);
    (split; [lia|]); rewrite <- app_assoc; reflexivity.
Qed.

Lemma create_order_again_witness :
  exists o1 s1, create_order (mkOrderCreate 10 None) (mkUser 1 true) (shop [] [] [])
                  = Ok o1 s1 /\
  exists o2 s2, create_order (mkOrderCreate 10 None) (mkUser 1 true) s1 = Ok o2 s2 /\
    order_item_id o2 = order_item_id o1 /\ order_buyer_id o2 = order_buyer_id o1 /\
    order_id o2 <> order_id o1 /\ orders s2 = orders (shop [] [] []) ++ [o1; o2].
Proof.
  do 2 eexists. split; [cbv; reflexivity|].
  exact (create_order_again (mkOrderCreate 10 None) (mkUser 1 true) (shop [] [] [])
           _ _ eq_refl).
Defined.

(** X8. update_order_charity never replaces a contribution: on an existing
    order it appends one more contribution row, with the order's buyer as
    its user, and changes nothing else; on an unknown order it raises
    OrderNotFoundError and changes nothing. *)
Theorem update_order_charity_appends (oid : nat) (amount : Z) (x : xdb) :
  (find (fun o => Nat.eqb (order_id o) oid) (orders (core x)) = None ->
   update_order_charity oid amount x = XErr OrderNotFoundError x) /\
  (forall o, find (fun o => Nat.eqb (order_id o) oid) (orders (core x)) = Some o ->
   update_order_charity oid amount x
   = XOk o (with_core (upd_charity_contributions
                         (fun l => l ++ [mkCharity oid (order_buyer_id o) amount]) (core x)) x)).
Proof.
  split.
  - intros F. unfold update_order_charity, xbind. rewrite (get_order_missing _ _ F).
    reflexivity.
  - intros o F. destruct (find_order_id _ _ _ F) as [Eo _].
    unfold update_order_charity, xbind. rewrite (get_order_found _ _ _ F).
    cbn. rewrite Eo. reflexivity.
Qed.

Lemma update_order_charity_appends_witness :
  update_order_charity 41 5 (xshop [] [pending_order] [])
    = XErr OrderNotFoundError (xshop [] [pending_order] []) /\
  update_order_charity 40 5 (xshop [] [pending_order] [])
    = XOk pending_order
        (with_core (upd_charity_contributions (fun l => l ++ [mkCharity 40 1 5])
                      (core (xshop [] [pending_order] []))) (xshop [] [pending_order] [])).
Proof.
  split.
  - apply (proj1 (update_order_charity_appends 41 5 (xshop [] [pending_order] [])));
      reflexivity.
  - apply (proj2 (update_order_charity_appends 40 5 (xshop [] [pending_order] []))
             pending_order); reflexivity.
Defined.

Lemma filter_length_zero {A} (f : A -> bool) (l : list A) :
  List.length (filter f l) = 0 -> filter f l = [].
Proof. destruct (filter f l); [reflexivity | discriminate]. Qed.

(** X9. creating a conversation and then looking up its (buyer, seller,
    item) triple with get_conversation returns the new conversation when
    the triple had none before, and raises MultipleResultsFound when it
    already had one: the lookup by users breaks once a triple is
    duplicated. *)
Theorem create_conversation_then_get_conversation (b se i : nat) (x : xdb)
    (c : Conversation) (s' : db) :
  create_conversation b se i (core x) = Ok c s' ->
  (triple_count b se i (core x) = 0 ->
   get_conversation b se i (with_core s' x) = XOk c (with_core s' x)) /\
  (1 <= triple_count b se i (core x) ->
   get_conversation b se i (with_core s' x) = XErr MultipleResultsFound (with_core s' x)).
Proof.
  unfold create_conversation, bind, fresh_id, modify, ret. cbn.
  intros H. injection H as <- <-.
  assert (Cm : conv_matches b se i (mkConversation (next_id (core x)) i b se) = true)
    by (unfold conv_matches; cbn; rewrite !Nat.eqb_refl; reflexivity).
  unfold triple_count, get_conversation, xbind, xgets. cbn -[conv_matches].
  rewrite filter_app. cbn -[conv_matches]. rewrite Cm.
  split.
  - intros Z0. rewrite (filter_length_zero _ _ Z0). reflexivity.
  - destruct (filter _ _) as [|c0 l]; cbn; [lia|]. intros _.
    destruct l; reflexivity.
Qed.

Lemma create_conversation_then_get_conversation_witness :
  exists c s', create_conversation 1 2 10 (core (xshop [] [] [])) = Ok c s' /\
  get_conversation 1 2 10 (with_core s' (xshop [] [] []))
    = XErr MultipleResultsFound (with_core s' (xshop [] [] [])).
Proof.
  do 2 eexists. split; [cbv; reflexivity|].
  apply (proj2 (create_conversation_then_get_conversation 1 2 10 (xshop [] [] []) _ _
                  eq_refl)).
  cbn; lia.
Defined.

(** X10. delete_payment_method deletes nothing when the payment method is not
    the current user's or is the payment method of an order: it raises an
    error and the store is unchanged. *)
Theorem delete_payment_method_refused (pmid : nat) (u : User) (x : xdb) :
  (forall p, In p (payment_methods (core x)) -> pm_id p = pmid -> pm_user_id p <> user_id u)
  \/ (exists o, In o (orders (core x)) /\ order_payment_method_id o = pmid) ->
  exists e, delete_payment_method pmid u x = XErr e x.
Proof.
  intros H. unfold delete_payment_method, xbind, xgets.
  destruct (filter _ (payment_methods (core x))) as [|p [|p' l]] eqn:F; cbn;
    try (eexists; reflexivity).
  assert (Ip : In p (filter (fun p => Nat.eqb (pm_id p) pmid) (payment_methods (core x))))
    by (rewrite F; left; reflexivity).
  apply filter_In in Ip as [Ip Ep]. apply Nat.eqb_eq in Ep.
  destruct (Nat.eqb (pm_user_id p) (user_id u)) eqn:Ow; cbn; [|eexists; reflexivity].
  apply Nat.eqb_eq in Ow.
  destruct H as [H | (o & Io & Eo)]; [exfalso; exact (H p Ip Ep Ow)|].
  replace (existsb _ (orders (core x))) with true; [eexists; reflexivity|].
  symmetry. apply existsb_exists. exists o. split; [exact Io|].
  apply Nat.eqb_eq. congruence.
Qed.

Lemma delete_payment_method_refused_witness :
  exists e, delete_payment_method 41 (mkUser 1 true)
              (mkXdb (upd_payment_methods (fun _ => [mkPaymentMethod 41 1])
                        (shop [] [pending_order] [])) [] [])
            = XErr e (mkXdb (upd_payment_methods (fun _ => [mkPaymentMethod 41 1])
                               (shop [] [pending_order] [])) [] []).
Proof.
  apply delete_payment_method_refused. right.
  exists pending_order. split; [left; reflexivity | reflexivity].
Defined.

(** X11. the owner deletes a payment method no order uses: the row is
    removed, nothing else changes, and get_payment_method on its id then
    raises NoResultFound. *)
Theorem delete_payment_method_removes (pmid : nat) (u : User) (x : xdb) (pm : PaymentMethod) :
  filter (fun p => Nat.eqb (pm_id p) pmid) (payment_methods (core x)) = [pm] ->
  pm_user_id pm = user_id u ->
  (forall o, In o (orders (core x)) -> order_payment_method_id o <> pmid) ->
  exists x', delete_payment_method pmid u x = XOk tt x' /\
    x' = with_core (upd_payment_methods (filter (fun p => negb (Nat.eqb (pm_id p) pmid)))
                      (core x)) x /\
    get_payment_method pmid x' = XErr (Core NoResultFound) x'.
Proof.
  intros F Ow NO.
  assert (Ep : pm_id pm = pmid).
  { assert (Ip : In pm (filter (fun p => Nat.eqb (pm_id p) pmid) (payment_methods (core x))))
      by (rewrite F; left; reflexivity).
    apply filter_In in Ip as [_ Ep]. apply Nat.eqb_eq in Ep. exact Ep. }
  unfold delete_payment_method, xbind, xgets. rewrite F. cbn.
  rewrite Ow, Nat.eqb_refl. cbn.
  replace (existsb _ (orders (core x))) with false.
  2:{ symmetry. apply Bool.not_true_iff_false. intros E.
      apply existsb_exists in E as [o [Io Eo]]. apply Nat.eqb_eq in Eo.
      apply (NO o Io). congruence. }
  eexists; split; [reflexivity|]. split; [reflexivity|].
  unfold get_payment_method, xbind, xgets. cbn.
  assert (R : filter (fun p => Nat.eqb (pm_id p) pmid)
                (filter (fun p => negb (Nat.eqb (pm_id p) pmid)) (payment_methods (core x)))
              = []).
  { clear F. induction (payment_methods (core x)) as [|a l IH]; cbn; [reflexivity|].
    destruct (Nat.eqb (pm_id a) pmid) eqn:E; cbn; [exact IH|rewrite E; exact IH]. }
  rewrite R. reflexivity.
Qed.

Lemma delete_payment_method_removes_witness :
  exists x', delete_payment_method 50 (mkUser 1 true)
               (mkXdb (upd_payment_methods (fun _ => [mkPaymentMethod 41 1; mkPaymentMethod 50 1])
                         (shop [] [pending_order] [])) [] []) = XOk tt x' /\
    x' = with_core (upd_payment_methods (filter (fun p => negb (Nat.eqb (pm_id p) 50)))
                      (upd_payment_methods (fun _ => [mkPaymentMethod 41 1; mkPaymentMethod 50 1])
                         (shop [] [pending_order] [])))
           (mkXdb (upd_payment_methods (fun _ => [mkPaymentMethod 41 1; mkPaymentMethod 50 1])
                     (shop [] [pending_order] [])) [] []) /\
    get_payment_method 50 x' = XErr (Core NoResultFound) x'.
Proof.
  refine (delete_payment_method_removes 50 (mkUser 1 true)
            (mkXdb (upd_payment_methods (fun _ => [mkPaymentMethod 41 1; mkPaymentMethod 50 1])
                      (shop [] [pending_order] [])) [] [])
            (mkPaymentMethod 50 1) eq_refl eq_refl _).
  intros o Io. destruct Io as [<-|[]]. cbn. lia.
Defined.

(** X12. get_billing_address works only for a user with exactly one billing
    address, and create_order saves a new one for the buyer at every order:
    after an order by a buyer who had no billing address it returns the
    order's, and after an order by a buyer who already had one it raises
    MultipleResultsFound. *)
Theorem create_order_then_get_billing_address (oc : OrderCreate) (u : User) (s : db)
    (o : Order) (s' : db) (x : xdb) :
  create_order oc u s = Ok o s' ->
  (filter (fun b => Nat.eqb (ba_user_id b) (user_id u)) (billing_addresses s) = [] ->
   get_billing_address u (with_core s' x)
   = XOk (mkBillingAddress (order_billing_address_id o) (user_id u)) (with_core s' x)) /\
  (filter (fun b => Nat.eqb (ba_user_id b) (user_id u)) (billing_addresses s) <> [] ->
   get_billing_address u (with_core s' x) = XErr MultipleResultsFound (with_core s' x)).
Proof.
  intros H. apply create_order_ok_inv in H.
  destruct H as (_ & _ & _ & _ & _ & _ & _ & _ & _ & _ & BA & _).
  unfold get_billing_address, xbind, xgets. cbn. rewrite BA, filter_app. cbn.
  rewrite Nat.eqb_refl. split.
  - intros E. rewrite E. reflexivity.
  - destruct (filter _ (billing_addresses s)) as [|b0 l]; [congruence|]. intros _.
    cbn. destruct l; reflexivity.
Qed.

Lemma create_order_then_get_billing_address_witness :
  exists o s', create_order (mkOrderCreate 10 None) (mkUser 1 true)
                 (upd_billing_addresses (fun _ => [mkBillingAddress 42 1]) (shop [] [] []))
               = Ok o s' /\
    get_billing_address (mkUser 1 true) (with_core s' (xshop [] [] []))
    = XErr MultipleResultsFound (with_core s' (xshop [] [] [])).
Proof.
  do 2 eexists. split; [cbv; reflexivity|].
  apply (proj2 (create_order_then_get_billing_address (mkOrderCreate 10 None) (mkUser 1 true)
                  (upd_billing_addresses (fun _ => [mkBillingAddress 42 1]) (shop [] [] []))
                  _ _ (xshop [] [] []) eq_refl)).
  cbn. discriminate.
Defined.

(** X13. PaymentController.create_payment_intent gives nothing to anyone but
    the order's buyer: for an unknown order or another user it raises an
    error and changes nothing, whatever Stripe would answer. *)
Theorem payment_create_payment_intent_only_buyer (api : StripeApi) (oid : nat) (u : User)
    (x : xdb) :
  (forall o, find (fun o => Nat.eqb (order_id o) oid) (orders (core x)) = Some o ->
             user_id u <> order_buyer_id o) ->
  exists e, payment_create_payment_intent api oid u x = XErr e x.
Proof.
  intros H. unfold payment_create_payment_intent, xbind.
  destruct (find (fun o => Nat.eqb (order_id o) oid) (orders (core x))) as [o|] eqn:F.
  - rewrite (get_order_found _ _ _ F). specialize (H o eq_refl).
    unfold lift, create_payment_intent. apply Nat.eqb_neq in H. rewrite H. cbn.
    destruct x; eexists; reflexivity.
  - rewrite (get_order_missing _ _ F). eexists; reflexivity.
Qed.

Lemma payment_create_payment_intent_only_buyer_witness :
  exists e, payment_create_payment_intent (mkStripeApi (Some "acct_2") true (Some intent_40))
              40 (mkUser 3 true) (xshop [] [pending_order] [])
            = XErr e (xshop [] [pending_order] []).
Proof.
  apply payment_create_payment_intent_only_buyer.
  intros o F. cbn in F. injection F as <-. cbn. lia.
Defined.

(** X14. the order status is the one the client sends in OrderCreate: an
    order can be created directly as COMPLETED or CANCELED, while its
    payment status is "pending". *)
Theorem create_order_client_status (oc : OrderCreate) (st : OrderStatus.t) (u : User)
    (x x' : xdb) (o : Order) :
  create_order_with_status oc st u x = XOk o x' ->
  status_of_order (order_id o) x' = st /\ order_payment_status o = "pending" /\
  order_cancellations x' = order_cancellations x.
Proof.
  unfold create_order_with_status, xbind, lift. intros H.
  destruct (create_order oc u (core x)) as [o0 s0|e s0] eqn:C; cbn in H; [|discriminate].
  injection H as <- <-.
  destruct (create_order_ok_inv _ _ _ _ _ C) as (_ & _ & _ & _ & _ & _ & P & _).
  unfold status_of_order. cbn. rewrite Nat.eqb_refl. auto.
Qed.

Lemma create_order_client_status_witness :
  exists o x', create_order_with_status (mkOrderCreate 10 None) OrderStatus.COMPLETED
                 (mkUser 1 true) (xshop [] [] []) = XOk o x' /\
    status_of_order (order_id o) x' = OrderStatus.COMPLETED /\
    order_payment_status o = "pending" /\
    order_cancellations x' = order_cancellations (xshop [] [] []).
Proof.
  do 2 eexists. split; [cbv; reflexivity|].
  exact (create_order_client_status (mkOrderCreate 10 None) OrderStatus.COMPLETED
           (mkUser 1 true) (xshop [] [] []) _ _ eq_refl).
Defined.

Lemma bind_ok {A B} (m : M A) (k : A -> M B) (s : db) (a : A) (s' : db) :
  m s = Ok a s' -> bind m k s = k a s'.
Proof. intros H. unfold bind. rewrite H. reflexivity. Qed.

Lemma find_user_id (uid : nat) (us : list User) (u : User) :
  find (fun x => Nat.eqb (user_id x) uid) us = Some u -> user_id u = uid.
Proof. intros F. apply find_some in F as [_ E]. apply Nat.eqb_eq. exact E. Qed.

Lemma find_conv_id (cid : nat) (cs : list Conversation) (c : Conversation) :
  find (fun x => Nat.eqb (conv_id x) cid) cs = Some c -> conv_id c = cid.
Proof. intros F. apply find_some in F as [_ E]. apply Nat.eqb_eq. exact E. Qed.

(** X15. send_message into an existing conversation does not check that the
    sender or the receiver take part in it: any two active users can add a
    message to any conversation, which is stored with the declared sender,
    receiver and conversation, and nothing else changes. *)
Theorem send_message_no_party_check (sender_id rid cid : nat) (text : string)
    (iid : option nat) (s : db) (us ur : User) (c : Conversation) :
  find (fun x => Nat.eqb (user_id x) sender_id) (users s) = Some us ->
  user_is_active us = true ->
  find (fun x => Nat.eqb (user_id x) rid) (users s) = Some ur ->
  user_is_active ur = true ->
  find (fun x => Nat.eqb (conv_id x) cid) (conversations s) = Some c ->
  send_message sender_id (mkMessageCreate text (Some rid) iid (Some cid)) s
  = Ok c (upd_messages (fun ms => ms ++ [mkMessage (next_id s) sender_id rid cid text])
            (upd_next_id S s)).
Proof.
  intros F1 A1 F2 A2 F3.
  pose proof (find_user_id _ _ _ F1) as E1. pose proof (find_user_id _ _ _ F2) as E2.
  pose proof (find_conv_id _ _ _ F3) as E3.
  unfold send_message, send_message_using.
  rewrite <- E1 in F1 |- *. rewrite (bind_ok _ _ _ _ _ (get_user_found us s F1 A1)).
  cbn [mc_receiver_id pc_receiver_id].
  rewrite <- E2 in F2 |- *. rewrite (bind_ok _ _ _ _ _ (get_user_found ur s F2 A2)).
  unfold bind at 1. cbn. rewrite F3. cbn.
  rewrite E1, E2, E3. reflexivity.
Qed.

Lemma send_message_no_party_check_witness :
  send_message 3 (mkMessageCreate "hello" (Some 3) None (Some 20)) (shop [] [] [])
  = Ok (mkConversation 20 10 1 2)
      (upd_messages (fun ms => ms ++ [mkMessage 100 3 3 20 "hello"])
         (upd_next_id S (shop [] [] []))).
Proof.
  exact (send_message_no_party_check 3 3 20 "hello" None (shop [] [] [])
           (mkUser 3 true) (mkUser 3 true) (mkConversation 20 10 1 2)
           eq_refl eq_refl eq_refl eq_refl eq_refl).
Defined.

(** X16. create_proposal into an existing conversation does not check that
    the sender takes part in it: any active user other than the seller,
    party or not, can put a proposal in any conversation; it is stored as
    PENDING and addressed to the conversation's seller, and nothing else
    changes. *)
Theorem create_proposal_no_party_check (sender_id rid cid : nat) (price : Z)
    (iid : option nat) (s : db) (us ur : User) (c : Conversation) :
  find (fun x => Nat.eqb (user_id x) sender_id) (users s) = Some us ->
  user_is_active us = true ->
  find (fun x => Nat.eqb (user_id x) rid) (users s) = Some ur ->
  user_is_active ur = true ->
  find (fun x => Nat.eqb (conv_id x) cid) (conversations s) = Some c ->
  sender_id <> conv_seller_id c ->
  create_proposal sender_id (mkProposalCreate price (Some rid) iid (Some cid)) s
  = Ok c (upd_proposals
            (fun ps => ps ++ [mkProposal (next_id s) price sender_id (conv_seller_id c) cid PENDING])
            (upd_next_id S s)).
Proof.
  intros F1 A1 F2 A2 F3 Ns.
  pose proof (find_user_id _ _ _ F1) as E1. pose proof (find_user_id _ _ _ F2) as E2.
  pose proof (find_conv_id _ _ _ F3) as E3.
  unfold create_proposal, create_proposal_using.
  rewrite <- E1 in F1 |- *. rewrite (bind_ok _ _ _ _ _ (get_user_found us s F1 A1)).
  cbn [mc_receiver_id pc_receiver_id].
  rewrite <- E2 in F2 |- *. rewrite (bind_ok _ _ _ _ _ (get_user_found ur s F2 A2)).
  unfold bind at 1. cbn. unfold catch, bind, gets. cbn. rewrite F3. cbn.
  rewrite E1, E3. apply Nat.eqb_neq in Ns. rewrite Ns. reflexivity.
Qed.

Lemma create_proposal_no_party_check_witness :
  create_proposal 3 (mkProposalCreate 50 (Some 1) None (Some 20)) (shop [] [] [])
  = Ok (mkConversation 20 10 1 2)
      (upd_proposals (fun ps => ps ++ [mkProposal 100 50 3 2 20 PENDING])
         (upd_next_id S (shop [] [] []))).
Proof.
  refine (create_proposal_no_party_check 3 1 20 50 None (shop [] [] [])
            (mkUser 3 true) (mkUser 1 true) (mkConversation 20 10 1 2)
            eq_refl eq_refl eq_refl eq_refl eq_refl _).
  cbn. lia.
Defined.

Lemma find_set_proposal_status_other (pid q : nat) (st : ProposalStatus) (ps : list Proposal) :
  q <> pid ->
  find (fun p => Nat.eqb (prop_id p) q) (set_proposal_status pid st ps)
  = find (fun p => Nat.eqb (prop_id p) q) ps.
Proof.
  intros N. induction ps as [|p ps IH]; cbn; [reflexivity|].
  destruct (Nat.eqb (prop_id p) pid) eqn:E; cbn.
  - apply Nat.eqb_eq in E. rewrite E.
    replace (Nat.eqb pid q) with false by (symmetry; apply Nat.eqb_neq; congruence).
    exact IH.
  - destruct (Nat.eqb (prop_id p) q); [reflexivity|exact IH].
Qed.

Lemma upd_proposals_back (s : db) (f : list Proposal -> list Proposal) :
  upd_proposals (fun _ => proposals s) (upd_proposals f s) = s.
Proof. destruct s; reflexivity. Qed.

(** X17. a successful accept_proposal or refuse_proposal changes only the
    status of the target proposal: every other proposal keeps its status
    (other accepted proposals of the same conversation stay accepted) and
    no other table changes; in particular accepting creates no order. *)
Theorem accept_refuse_only_target (pid uid : nat) (s s' : db) (c : Conversation) :
  (accept_proposal pid uid s = Ok c s' ->
   status_of pid s' = Some ACCEPTED /\
   (forall q, q <> pid -> status_of q s' = status_of q s) /\
   upd_proposals (fun _ => proposals s) s' = s) /\
  (refuse_proposal pid uid s = Ok c s' ->
   status_of pid s' = Some REJECTED /\
   (forall q, q <> pid -> status_of q s' = status_of q s) /\
   upd_proposals (fun _ => proposals s) s' = s).
Proof.
  assert (K : forall st, find (fun p => Nat.eqb (prop_id p) pid) (proposals s) <> None ->
     status_of pid (upd_proposals (set_proposal_status pid st) s) = Some st /\
     (forall q, q <> pid -> status_of q (upd_proposals (set_proposal_status pid st) s)
                            = status_of q s) /\
     upd_proposals (fun _ => proposals s) (upd_proposals (set_proposal_status pid st) s) = s).
  { intros st Hf. split; [|split].
    - unfold status_of. cbn. rewrite find_set_proposal_status.
      destruct (find _ (proposals s)); [reflexivity|congruence].
    - intros q N. unfold status_of. cbn. rewrite find_set_proposal_status_other by exact N.
      reflexivity.
    - apply upd_proposals_back. }
  split.
  - unfold accept_proposal, bind, gets. intros H.
    destruct (find _ (proposals s)) as [p|] eqn:Fp; cbn in H; [|discriminate].
    destruct (find _ (conversations s)) as [cv|]; cbn in H; [|discriminate].
    destruct (Nat.eqb (prop_sender_id p) uid); cbn in H; [discriminate|].
    destruct (_ && _); cbn in H; [discriminate|].
    injection H as _ <-. apply K. congruence.
  - unfold refuse_proposal, bind, gets. intros H.
    destruct (find _ (proposals s)) as [p|] eqn:Fp; cbn in H; [|discriminate].
    destruct (find _ (conversations s)) as [cv|]; cbn in H; [|discriminate].
    destruct (_ && _); cbn in H; [discriminate|].
    injection H as _ <-. apply K. congruence.
Qed.

Lemma accept_refuse_only_target_witness :
  exists s', accept_proposal 31 1 (shop [accepted_80; mkProposal 31 90 2 1 20 PENDING] [] [])
               = Ok (mkConversation 20 10 1 2) s' /\
   status_of 31 s' = Some ACCEPTED /\
   (forall q, q <> 31 -> status_of q s'
                         = status_of q (shop [accepted_80; mkProposal 31 90 2 1 20 PENDING] [] [])) /\
   upd_proposals (fun _ => proposals (shop [accepted_80; mkProposal 31 90 2 1 20 PENDING] [] [])) s'
     = shop [accepted_80; mkProposal 31 90 2 1 20 PENDING] [] [].
Proof.
  eexists. split; [cbv; reflexivity|].
  exact (proj1 (accept_refuse_only_target 31 1
                  (shop [accepted_80; mkProposal 31 90 2 1 20 PENDING] [] []) _ _) eq_refl).
Defined.

(** X18. create_payment_intent writes at most one row: it leaves the store
    unchanged, except that when the order's seller has no Stripe seller
    account and Stripe creates one, it appends that account, which stays
    whatever happens next. *)
Theorem create_payment_intent_writes (api : StripeApi) (order : Order) (u : User) (s : db) :
  store (create_payment_intent api order u s) = s \/
  (find (fun a => Nat.eqb (ssa_user_id a) (order_seller_id order)) (stripe_seller_accounts s)
     = None /\
   exists acct, api_account_create api = Some acct /\
     store (create_payment_intent api order u s)
     = upd_stripe_seller_accounts
         (fun l => l ++ [mkStripeSellerAccount (order_seller_id order) acct]) s).
Proof.
  unfold create_payment_intent.
  destruct (negb _); [left; reflexivity|]. cbn.
  destruct (find _ (stripe_seller_accounts s)) as [a|] eqn:F.
  - left. cbn. destruct (Z.leb _ 0); [reflexivity|].
    destruct (api_customer_create api); [|reflexivity].
    destruct (api_payment_intent_create api); reflexivity.
  - destruct (api_account_create api) as [acct|] eqn:Ac; [|left; reflexivity].
    right. split; [reflexivity|]. exists acct. split; [reflexivity|]. cbn.
    destruct (Z.leb _ 0); [reflexivity|].
    destruct (api_customer_create api); [|reflexivity].
    destruct (api_payment_intent_create api); reflexivity.
Qed.

(** X19. confirm_payment writes to the store only for a payment intent that
    has succeeded and whose order exists and is not yet paid; for an
    unknown intent, an intent in any other status, or a paid order, the
    store is left as it was. *)
Theorem confirm_payment_write_condition (intents : list PaymentIntent) (pid : string) (s : db) :
  store (confirm_payment intents pid s) <> s ->
  exists intent o,
    find (fun i => String.eqb (pi_id i) pid) intents = Some intent /\
    pi_status intent = "succeeded" /\ pi_meta_order_id intent = Some (order_id o) /\
    find (fun x => Nat.eqb (order_id x) (order_id o)) (orders s) = Some o /\
    order_payment_status o <> "paid".
Proof.
  unfold confirm_payment. intros H.
  destruct (find _ intents) as [intent|] eqn:Fi; [|exfalso; apply H; reflexivity].
  destruct (pi_meta_order_id intent) as [oid|] eqn:Fo; [|exfalso; apply H; reflexivity].
  unfold bind at 1, gets in H.
  destruct (find _ (orders s)) as [o|] eqn:Fx; [|exfalso; apply H; reflexivity].
  destruct (find_order_id _ _ _ Fx) as [Eo _].
  destruct (String.eqb (order_payment_status o) "paid") eqn:Pd;
    cbn in H; [exfalso; apply H; reflexivity|].
  destruct (String.eqb (pi_status intent) "succeeded") eqn:Sc;
    [|exfalso; apply H; reflexivity].
  exists intent, o. apply String.eqb_eq in Sc. apply String.eqb_neq in Pd.
  rewrite Eo. auto.
Qed.

Lemma confirm_payment_write_condition_witness :
  exists intent o,
    find (fun i => String.eqb (pi_id i) "pi_1") [intent_40] = Some intent /\
    pi_status intent = "succeeded" /\ pi_meta_order_id intent = Some (order_id o) /\
    find (fun x => Nat.eqb (order_id x) (order_id o))
      (orders (shop [] [pending_order] [mkBankAccount 50 2])) = Some o /\
    order_payment_status o <> "paid".
Proof.
  apply (confirm_payment_write_condition [intent_40] "pi_1"
           (shop [] [pending_order] [mkBankAccount 50 2])).
  cbv. discriminate.
Defined.

Lemma confirm_payment_records_payout_witness :
  exists r s', confirm_payment [intent_40] "pi_1" (shop [] [pending_order] [mkBankAccount 50 2])
                 = Ok r s' /\
    orders s' = mark_paid 40 "pi_1" (orders (shop [] [pending_order] [mkBankAccount 50 2])) /\
    payouts s' = payouts (shop [] [pending_order] [mkBankAccount 50 2]) ++
      [mkPayout 40 2 80 4 (80 - 4)%Z "completed" "pi_1" 50].
Proof.
  apply (confirm_payment_records_payout [intent_40] "pi_1"
           (shop [] [pending_order] [mkBankAccount 50 2]) intent_40 40 pending_order
           (mkBankAccount 50 2)); try reflexivity.
  cbv. discriminate.
Defined.
